(** * tailscale-exporter: the collector and the address watchdog of [main.go]

    A shallow embedding of [main.go].  The program shells out to
    [tailscale status -json], decodes the answer into a [TailscaleStatus],
    and
    - on every scrape ([Collector.Collect]) sends two constant metrics per
      peer on the registry's channel;
    - in a background goroutine ([main]) re-reads the first self address in
      a loop and ends the process when it changed or when reading it failed
      too often.

    Go strings are byte strings and are modelled by [string]; Go's [int] is
    the 64-bit two's complement integer, modelled by [Z] with the wrap-around
    written out where the program does arithmetic on it; [float64] is
    modelled by [spec_float] at precision 53.  A Go map is a [gmap]; the
    order in which [range] visits it is an input of the model. *)

From Stdlib Require Import ZArith String Ascii List Lia QArith DecimalString.
From Stdlib Require Import Floats.SpecFloat.
From Stdlib Require Import DecimalZ DecimalPos.
From stdpp Require Import base list strings gmap.
Import ListNotations.

Open Scope Z_scope.

(** ** The parts of Go's library the program calls *)

Module strings.

(** [strings.Split(s, sep)] for a separator of one byte, the only kind
    the program passes: the pieces of [s] between the occurrences of
    [sep], in order; a string without [sep] is its own single piece. *)
Fixpoint Split (s : string) (sep : ascii) : list string :=
  match s with
  | EmptyString => [EmptyString]
  | String c rest =>
      if Ascii.eqb c sep then EmptyString :: Split rest sep
      else match Split rest sep with
           | piece :: pieces => String c piece :: pieces
           | [] => [String c EmptyString]
           end
  end.

End strings.

Module strconv.

(** [strconv.Itoa(i)]: the decimal representation, with a leading [-]
    for a negative number. *)
Definition Itoa (i : Z) : string := NilZero.string_of_int (Z.to_int i).

End strconv.

Module GoInt.

(** Go's [int] on a 64-bit platform holds the integers from -2^63 to
    2^63 - 1; [wrap] is the two's complement wrap-around of a mathematical
    result. *)
Definition wrap (x : Z) : Z := (x + 2 ^ 63) mod 2 ^ 64 - 2 ^ 63.

(** [x++] *)
Definition incr (x : Z) : Z := wrap (x + 1).

(** The conversion [float64(x)]: the integer rounded to the nearest
    binary64 number, ties to even. *)
Definition float64 (x : Z) : spec_float := binary_normalize 53 1024 x 0 false.

End GoInt.

(** The rational number a finite [float64] stands for. *)
Definition float64_value (f : spec_float) : option Q :=
  match f with
  | S754_zero _ => Some 0%Q
  | S754_finite s m e =>
      let sm := cond_Zopp s (Zpos m) in
      Some (match e with
            | Zneg d => Qmake sm (2 ^ d)%positive
            | _ => inject_Z (sm * 2 ^ e)
            end)
  | S754_infinity _ | S754_nan => None
  end.

(** A [float64] that is exactly the integer [n]. *)
Definition float64_is (f : spec_float) (n : Z) : Prop :=
  match float64_value f with
  | Some q => Qeq q (inject_Z n)
  | None => False
  end.

(** ** The decoded status document

    [TailscaleStatus] has many more fields.  Kept here are the fields of a
    node that the program reads and the ones the design's data model
    names; the others are decoded and never looked at. *)

Module Self.
Record t := {
  ID : string;
  HostName : string;
  DNSName : string;
  UserID : Z;
  TailscaleIPs : list string;
  RxBytes : Z;
  TxBytes : Z
}.
End Self.

Module Peer.
Record t := {
  ID : string;
  HostName : string;
  DNSName : string;
  UserID : Z;
  TailscaleIPs : list string;
  RxBytes : Z;
  TxBytes : Z
}.
End Peer.

Record TailscaleStatus := {
  Self : Self.t;
  Peer : gmap string Peer.t
}.

(** [for _, peer := range status.Peer] visits every entry once, in an order
    the runtime picks: [visits m order] says that [order] is one such
    order. *)
Definition visits (m : gmap string Peer.t) (order : list (string * Peer.t)) : Prop :=
  order ≡ₚ map_to_list m.

(** ** Errors and panics *)

(** The [error] values the program builds, with the values they wrap. *)
Inductive error :=
| ErrNodesList (run_err : string) (stderr : string)
| ErrUnmarshal (json_err : string) (stdout : string)
| ErrNoIps.

(** [err.Error()], as the [fmt.Errorf] formats spell it. *)
Definition Error (err : error) : string :=
  match err with
  | ErrNodesList run_err stderr =>
      "error on headscale nodes list: " +:+ run_err +:+ ". stderr: " +:+ stderr
  | ErrUnmarshal json_err stdout =>
      "error on unmarshal: " +:+ json_err +:+ ". stdout: " +:+ stdout
  | ErrNoIps => "no ips found"
  end.

(** What a goroutine can panic with. *)
Inductive PanicValue :=
| PanicError (err : error)
| PanicIndex (i : nat) (len : nat)
| PanicMetric (msg : string).

(** ** [os/exec]: one run of the external command *)

Module exec.

(** How the process ended: with an exit code, or not at all (it could
    not be started, or was killed when the context's deadline passed). *)
Inductive ProcessState :=
| Exited (code : Z)
| NotCompleted (why : string).

(** What one run of [tailscale status -json] leaves behind: the state of
    the process and the two buffers it wrote to. *)
Record Cmd := {
  State : ProcessState;
  Stdout : string;
  Stderr : string
}.

(** [cmd.Run()]: [nil] exactly when the command ran and exited with
    status zero; what was written to the buffers plays no part. *)
Definition Run (cmd : Cmd) : option string :=
  match State cmd with
  | Exited 0 => None
  | Exited code => Some ("exit status " +:+ strconv.Itoa code)
  | NotCompleted why => Some why
  end.

End exec.

(** ** [prometheus]: descriptors and constant metrics *)

Module prometheus.

Inductive ValueType := CounterValue | GaugeValue | UntypedValue.

Record Desc := {
  fqName : string;
  help : string;
  variableLabels : list string
}.

(** The names the program passes are valid metric and label names, so
    the descriptors it builds carry no error. *)
Definition NewDesc (fqName help : string) (variableLabels : list string) : Desc :=
  {| fqName := fqName; help := help; variableLabels := variableLabels |}.

Record Metric := {
  desc : Desc;
  valType : ValueType;
  val : spec_float;
  labelValues : list string
}.

(** [NewConstMetric] refuses a list of label values that has not the
    length of the descriptor's variable labels.  (It also refuses a label
    value that is not valid UTF-8; the strings of a decoded document are
    valid UTF-8, [encoding/json] sees to it, so that check is left out.) *)
Definition NewConstMetric (d : Desc) (vt : ValueType) (value : spec_float)
    (labelValues : list string) : string + Metric :=
  if Nat.eqb (length labelValues) (length (variableLabels d))
  then inr {| desc := d; valType := vt; val := value; labelValues := labelValues |}
  else inl "inconsistent label cardinality"%string.

End prometheus.

(** ** A goroutine that sends on a channel and may panic

    [Chan A] is a computation that sends metrics on the channel [ch], in
    order, and then returns an [A] or panics.  What was sent before a panic
    stays sent. *)

Inductive Outcome (A : Type) :=
| Returned (a : A)
| Panicked (p : PanicValue).
Arguments Returned {A} a.
Arguments Panicked {A} p.

Definition Chan (A : Type) : Type := list prometheus.Metric * Outcome A.

Definition ret {A} (a : A) : Chan A := ([], Returned a).

Definition bind {A B} (f : A -> Chan B) (m : Chan A) : Chan B :=
  match m with
  | (sent, Returned a) => let '(sent', r) := f a in (sent ++ sent', r)
  | (sent, Panicked p) => (sent, Panicked p)
  end.

#[global] Instance Chan_ret : MRet Chan := @ret.
#[global] Instance Chan_bind : MBind Chan := @bind.

(** [ch <- m] *)
Definition send (m : prometheus.Metric) : Chan unit := ([m], Returned tt).

Definition panic {A} (p : PanicValue) : Chan A := ([], Panicked p).

(** [s[i]]: a run-time panic when [i] is out of range. *)
Definition index (s : list string) (i : nat) : Chan string :=
  match s !! i with
  | Some x => ret x
  | None => panic (PanicIndex i (length s))
  end.

(** [s[i] = x], with the same panic. *)
Definition assign (s : list string) (i : nat) (x : string) : Chan (list string) :=
  if Nat.ltb i (length s) then ret (<[i:=x]> s) else panic (PanicIndex i (length s)).

(** [prometheus.MustNewConstMetric] *)
Definition MustNewConstMetric (d : prometheus.Desc) (vt : prometheus.ValueType)
    (value : spec_float) (labelValues : list string) : Chan prometheus.Metric :=
  match prometheus.NewConstMetric d vt value labelValues with
  | inr m => ret m
  | inl msg => panic (PanicMetric msg)
  end.

(** [for _, x := range xs { body }] over the visiting order [xs]. *)
Fixpoint range {A} (xs : list A) (body : A -> Chan unit) : Chan unit :=
  match xs with
  | [] => ret tt
  | x :: rest => body x ;; range rest body
  end.

(** ** The program *)

Definition dynLabels : list string :=
  ["id"; "name"; "given_name"; "ip"; "peer_name"; "peer_given_name"; "peer_ip"; "peer_user_id"]%string.
Definition PeerRxDesc : prometheus.Desc := prometheus.NewDesc "tailscale_peer_rx" "" dynLabels.
Definition PeerTxDesc : prometheus.Desc := prometheus.NewDesc "tailscale_peer_tx" "" dynLabels.

(** [Collector.Describe]: the descriptors it sends on its channel, in the
    order it sends them. *)
Definition Describe : list prometheus.Desc := [PeerTxDesc; PeerRxDesc].

Section Exporter.

(** [json.Unmarshal(stdout, &status)] on a fresh [status]: the decoder's
    error or the decoded document. *)
Variable json_Unmarshal : string -> string + TailscaleStatus.

(** [TailscaleGetStatus], as a function of what the run of the command
    left behind. *)
Definition TailscaleGetStatus (cmd : exec.Cmd) : error + TailscaleStatus :=
  match exec.Run cmd with
  | Some err => inl (ErrNodesList err (exec.Stderr cmd))
  | None =>
      match json_Unmarshal (exec.Stdout cmd) with
      | inl err => inl (ErrUnmarshal err (exec.Stdout cmd))
      | inr status => inr status
      end
  end.

(** The body of the [for] statement of [Collect], for one peer. *)
Definition collectPeer (templateLabels : list string) (peer : Peer.t) : Chan unit :=
  let labels := templateLabels in
  labels ← assign labels 4 (Peer.HostName peer);
  peer_given_name ← index (strings.Split (Peer.DNSName peer) ".") 0;
  labels ← assign labels 5 peer_given_name;
  peer_ip ← index (Peer.TailscaleIPs peer) 0;
  labels ← assign labels 6 peer_ip;
  labels ← assign labels 7 (strconv.Itoa (Peer.UserID peer));
  rx ← MustNewConstMetric PeerRxDesc prometheus.CounterValue
         (GoInt.float64 (Peer.RxBytes peer)) labels;
  send rx ;;
  tx ← MustNewConstMetric PeerTxDesc prometheus.CounterValue
         (GoInt.float64 (Peer.TxBytes peer)) labels;
  send tx.

(** [Collect] once the status is fetched; [slices.Clone] is the [let]
    of [collectPeer], lists are values. *)
Definition collectStatus (status : TailscaleStatus)
    (order : list (string * Peer.t)) : Chan unit :=
  let templateLabels := replicate (length dynLabels) ""%string in
  templateLabels ← assign templateLabels 0 (Self.ID (Self status));
  templateLabels ← assign templateLabels 1 (Self.HostName (Self status));
  given_name ← index (strings.Split (Self.DNSName (Self status)) ".") 0;
  templateLabels ← assign templateLabels 2 given_name;
  ip ← index (Self.TailscaleIPs (Self status)) 0;
  templateLabels ← assign templateLabels 3 ip;
  range order (fun '(_, peer) => collectPeer templateLabels peer).

(** [Collector.Collect]: [cmd] is the run of the command this scrape
    triggers, [order] the order in which [range] visits the peers. *)
Definition Collect (cmd : exec.Cmd) (order : list (string * Peer.t)) : Chan unit :=
  match TailscaleGetStatus cmd with
  | inl err => panic (PanicError err)
  | inr status => collectStatus status order
  end.

(** [getListenAddr]: [len(ips) < 1] is the empty list, [ips[0]] the head
    of any other. *)
Definition getListenAddr (cmd : exec.Cmd) : error + string :=
  match TailscaleGetStatus cmd with
  | inl err => inl err
  | inr status =>
      let ips := Self.TailscaleIPs (Self status) in
      match ips with
      | [] => inl ErrNoIps
      | ip0 :: _ => inr ip0
      end
  end.

(** *** The goroutine of [main] *)

(** How the process ends:
    - [ExitPanic err] is [panic(err)], the panic of [main] itself, whose
      value is the error [err] of the failed read;
    - [ExitPanicErrorf format] is [panic(fmt.Errorf(format))], the panic of
      the goroutine, whose value is the new error that [fmt.Errorf] makes
      of [format], called without operands.  The program hands the whole
      text as the format, so [fmt] reads a [%] in it as a verb; what [fmt]
      then makes of it is not modelled, the value is kept as the call;
    - [ExitFatal was now] is [log.Fatalf] with the two addresses. *)
Inductive Exit :=
| ExitPanic (err : error)
| ExitPanicErrorf (format : string)
| ExitFatal (was now : string).

(** The goroutine is at the head of its loop with [errors] failures
    counted, or the process is gone. *)
Inductive Goroutine :=
| Loop (errors : Z)
| Dead (how : Exit).

(** One turn of the [for] loop: [ip] is the address [main] started with,
    [cmd] the run of the command this turn triggers.  A turn that ends in
    [continue] starts the next one at once, the other one sleeps for 20
    seconds first; the model keeps no clock. *)
Definition turn (ip : string) (errors : Z) (cmd : exec.Cmd) : Goroutine :=
  match getListenAddr cmd with
  | inl err =>
      let errors := GoInt.incr errors in
      if errors >? 20 then Dead (ExitPanicErrorf ("on update ip: " +:+ Error err))
      else Loop errors
  | inr newIp =>
      if negb (String.eqb newIp ip) then Dead (ExitFatal ip newIp)
      else Loop errors
  end.

(** The loop, fed with the runs of the command of its successive turns. *)
Fixpoint watchdog (ip : string) (errors : Z) (runs : list exec.Cmd) : Goroutine :=
  match runs with
  | [] => Loop errors
  | cmd :: rest =>
      match turn ip errors cmd with
      | Loop errors' => watchdog ip errors' rest
      | Dead how => Dead how
      end
  end.

(** [main], as far as the goroutine goes: [boot] is the run that yields
    the listen address. *)
Definition main (boot : exec.Cmd) (runs : list exec.Cmd) : Goroutine :=
  match getListenAddr boot with
  | inl err => Dead (ExitPanic err)
  | inr ip => watchdog ip 0 runs
  end.

End Exporter.

(** ** Reference definitions for the statements *)

(** The DNS name cut at its first [sep], the separator left out: the
    characters in front of the first [sep], or the whole name when it has
    none. *)
Fixpoint truncate_at (sep : ascii) (d : string) : string :=
  match d with
  | EmptyString => EmptyString
  | String c rest =>
      if Ascii.eqb c sep then EmptyString else String c (truncate_at sep rest)
  end.

(** [c] occurs in [d]. *)
Fixpoint occurs (c : ascii) (d : string) : Prop :=
  match d with
  | EmptyString => False
  | String c' rest => c' = c \/ occurs c rest
  end.

(** The watchdog's states as the design names them: no failure counted,
    some failures counted, process gone. *)
Inductive WatchdogState :=
| Running
| Degraded (consecutiveFailures : Z)
| Terminated.

Definition state_of (g : Goroutine) : WatchdogState :=
  match g with
  | Loop 0 => Running
  | Loop errors => Degraded errors
  | Dead _ => Terminated
  end.

(** The counter of a goroutine that still loops. *)
Definition counter_of (g : Goroutine) : option Z :=
  match g with
  | Loop errors => Some errors
  | Dead _ => None
  end.

(** The label values of a peer's two metrics: four from the self node,
    four from the peer. *)
Definition labelsOf (status : TailscaleStatus) (self_ip : string) (peer : Peer.t)
    (peer_ip : string) : list string :=
  [ Self.ID (Self status); Self.HostName (Self status);
    truncate_at "." (Self.DNSName (Self status)); self_ip;
    Peer.HostName peer; truncate_at "." (Peer.DNSName peer); peer_ip;
    strconv.Itoa (Peer.UserID peer) ].

Definition metricOf (d : prometheus.Desc) (bytes : Z) (labels : list string)
    : prometheus.Metric :=
  {| prometheus.desc := d; prometheus.valType := prometheus.CounterValue;
     prometheus.val := GoInt.float64 bytes; prometheus.labelValues := labels |}.

(** The metrics [Collect] sends for one peer that has an address. *)
Definition metricsOf (status : TailscaleStatus) (self_ip : string) (peer : Peer.t)
    : list prometheus.Metric :=
  match Peer.TailscaleIPs peer with
  | [] => []
  | peer_ip :: _ =>
      let labels := labelsOf status self_ip peer peer_ip in
      [ metricOf PeerRxDesc (Peer.RxBytes peer) labels;
        metricOf PeerTxDesc (Peer.TxBytes peer) labels ]
  end.

(** The template of the labels once the four values of the self node are
    filled in, and the body of the loop over the peers with it. *)
Definition templateOf (status : TailscaleStatus) (self_ip : string) : list string :=
  [ Self.ID (Self status); Self.HostName (Self status);
    truncate_at "." (Self.DNSName (Self status)); self_ip;
    ""; ""; ""; "" ]%string.

Definition loopBody (status : TailscaleStatus) (self_ip : string)
    : string * Peer.t -> Chan unit :=
  fun '(_, peer) => collectPeer (templateOf status self_ip) peer.

(** A turn fed with [cmd] counts a failure. *)
Definition fails (json : string -> string + TailscaleStatus) (cmd : exec.Cmd) : bool :=
  match getListenAddr json cmd with
  | inl _ => true
  | inr _ => false
  end.

(** The number of failing runs among [runs]. *)
Definition failures (json : string -> string + TailscaleStatus)
    (runs : list exec.Cmd) : Z :=
  Z.of_nat (length (List.filter (fails json) runs)).

(** The pieces joined again, [sep] between two neighbours (what
    [strings.Join] does). *)
Fixpoint join (sep : ascii) (pieces : list string) : string :=
  match pieces with
  | [] => EmptyString
  | [piece] => piece
  | piece :: rest => piece +:+ String sep (join sep rest)
  end.

(** How often [c] occurs in [d]. *)
Fixpoint count (c : ascii) (d : string) : nat :=
  match d with
  | EmptyString => 0%nat
  | String c' rest => ((if Ascii.eqb c' c then 1 else 0) + count c rest)%nat
  end.

(** A peer has an address. *)
Definition addressed (kp : string * Peer.t) : Prop := Peer.TailscaleIPs kp.2 <> [].

(** The four ways a scrape can go. *)
Inductive Scrape (json : string -> string + TailscaleStatus) (cmd : exec.Cmd)
    (order : list (string * Peer.t)) : Chan unit -> Prop :=
| ScrapeFetchFailed err :
    TailscaleGetStatus json cmd = inl err ->
    Scrape json cmd order ([], Panicked (PanicError err))
| ScrapeNoSelfAddress status :
    TailscaleGetStatus json cmd = inr status ->
    Self.TailscaleIPs (Self status) = [] ->
    Scrape json cmd order ([], Panicked (PanicIndex 0 0))
| ScrapeDone status self_ip ips :
    TailscaleGetStatus json cmd = inr status ->
    Self.TailscaleIPs (Self status) = self_ip :: ips ->
    Forall addressed order ->
    Scrape json cmd order
      (flat_map (fun kp => metricsOf status self_ip kp.2) order, Returned tt)
| ScrapeNoPeerAddress status self_ip ips before kp after :
    TailscaleGetStatus json cmd = inr status ->
    Self.TailscaleIPs (Self status) = self_ip :: ips ->
    order = before ++ kp :: after ->
    Forall addressed before ->
    Peer.TailscaleIPs kp.2 = [] ->
    Scrape json cmd order
      (flat_map (fun kp => metricsOf status self_ip kp.2) before,
       Panicked (PanicIndex 0 0)).

(** ** Sample documents *)

Module Sample.

Definition self : Self.t :=
  {| Self.ID := "n0"; Self.HostName := "host1";
     Self.DNSName := "host1.tailnetxyz.ts.net"; Self.UserID := 1;
     Self.TailscaleIPs := ["100.64.0.1"; "fd7a::1"]%string;
     Self.RxBytes := 0; Self.TxBytes := 0 |}.

Definition p1 : Peer.t :=
  {| Peer.ID := "n1"; Peer.HostName := "peer1";
     Peer.DNSName := "peer1.tailnetxyz.ts.net."; Peer.UserID := 5;
     Peer.TailscaleIPs := ["100.64.0.2"]%string;
     Peer.RxBytes := 10; Peer.TxBytes := 20 |}.

(** A peer without addresses. *)
Definition p2 : Peer.t :=
  {| Peer.ID := "n2"; Peer.HostName := "peer2";
     Peer.DNSName := "peer2"; Peer.UserID := 7;
     Peer.TailscaleIPs := [];
     Peer.RxBytes := 1; Peer.TxBytes := 2 |}.

(** A peer that has received one byte more than 2^53. *)
Definition p3 : Peer.t :=
  {| Peer.ID := "n3"; Peer.HostName := "peer3";
     Peer.DNSName := "peer3.tailnetxyz.ts.net."; Peer.UserID := 5;
     Peer.TailscaleIPs := ["100.64.0.3"]%string;
     Peer.RxBytes := 9007199254740993; Peer.TxBytes := 20 |}.

(** A node other than [p1] with the host name, the first DNS piece, the
    first address and the user of [p1]. *)
Definition p1_twin : Peer.t :=
  {| Peer.ID := "n9"; Peer.HostName := "peer1";
     Peer.DNSName := "peer1.othernet.ts.net."; Peer.UserID := 5;
     Peer.TailscaleIPs := ["100.64.0.2"; "fd7a::2"]%string;
     Peer.RxBytes := 7; Peer.TxBytes := 8 |}.

Definition one_peer : TailscaleStatus :=
  {| Self := self; Peer := {[ "nodekey:01"%string := p1 ]} |}.

Definition two_peers : TailscaleStatus :=
  {| Self := self;
     Peer := <[ "nodekey:02"%string := p2 ]> {[ "nodekey:01"%string := p1 ]} |}.

Definition big_counter : TailscaleStatus :=
  {| Self := self; Peer := {[ "nodekey:03"%string := p3 ]} |}.

(** The self node lists a new first address, the old one second. *)
Definition moved : TailscaleStatus :=
  {| Self :=
       {| Self.ID := "n0"; Self.HostName := "host1";
          Self.DNSName := "host1.tailnetxyz.ts.net"; Self.UserID := 1;
          Self.TailscaleIPs := ["100.64.0.9"; "100.64.0.1"]%string;
          Self.RxBytes := 0; Self.TxBytes := 0 |};
     Peer := ∅ |}.

Definition no_self_address : TailscaleStatus :=
  {| Self :=
       {| Self.ID := "n0"; Self.HostName := "host1";
          Self.DNSName := "host1.tailnetxyz.ts.net"; Self.UserID := 1;
          Self.TailscaleIPs := [];
          Self.RxBytes := 0; Self.TxBytes := 0 |};
     Peer := {[ "nodekey:01"%string := p1 ]} |}.

(** A decoder for the sample documents, each standing for the JSON text
    of the status next to it; any other text is refused. *)
Definition json_Unmarshal (stdout : string) : string + TailscaleStatus :=
  if String.eqb stdout "one_peer.json" then inr one_peer
  else if String.eqb stdout "two_peers.json" then inr two_peers
  else if String.eqb stdout "big_counter.json" then inr big_counter
  else if String.eqb stdout "moved.json" then inr moved
  else if String.eqb stdout "no_self_address.json" then inr no_self_address
  else inl "invalid character"%string.

(** A run that exits with status 0 and prints [stdout]. *)
Definition prints (stdout : string) : exec.Cmd :=
  {| exec.State := exec.Exited 0; exec.Stdout := stdout; exec.Stderr := "" |}.

(** A run that exits with status 1 and complains. *)
Definition refused : exec.Cmd :=
  {| exec.State := exec.Exited 1; exec.Stdout := "";
     exec.Stderr := "failed to connect to local tailscaled" |}.

(** A run that exits with status 1 and complains with a percent sign. *)
Definition down : exec.Cmd :=
  {| exec.State := exec.Exited 1; exec.Stdout := "";
     exec.Stderr := "100%s down" |}.

(** The self node with the peers [p1] and [p3]. *)
Definition peers_1_3 : TailscaleStatus :=
  {| Self := self;
     Peer := <[ "nodekey:03"%string := p3 ]> {[ "nodekey:01"%string := p1 ]} |}.

(** The decoder with one document more. *)
Definition json_Unmarshal_more (stdout : string) : string + TailscaleStatus :=
  if String.eqb stdout "peers_1_3.json" then inr peers_1_3
  else json_Unmarshal stdout.

(** A run that exits with status 0, prints a document and warns. *)
Definition warns : exec.Cmd :=
  {| exec.State := exec.Exited 0; exec.Stdout := "one_peer.json";
     exec.Stderr := "Warning: client version != tailscaled server version" |}.

End Sample.

(** * Properties *)

(** ** Go's library *)

Example Split_dns :
  strings.Split "host1.tailnetxyz.ts.net" "." = ["host1"; "tailnetxyz"; "ts"; "net"]%string.
Proof. reflexivity. Qed.

Example Split_edge :
  strings.Split "" "." = [""%string] /\ strings.Split "a." "." = ["a"; ""]%string
  /\ strings.Split ".a" "." = [""; "a"]%string.
Proof. repeat split. Qed.

Example Itoa_samples :
  strconv.Itoa 5 = "5"%string /\ strconv.Itoa 0 = "0"%string
  /\ strconv.Itoa (-1205) = "-1205"%string.
Proof. repeat split. Qed.

Lemma Split_nonempty s sep : strings.Split s sep <> [].
Proof.
  destruct s as [|c rest]; simpl; [discriminate|].
  destruct (Ascii.eqb c sep); [discriminate|].
  destruct (strings.Split rest sep); discriminate.
Qed.

(** The first piece of [Split] is the string cut at the first separator. *)
Lemma Split_head s sep : strings.Split s sep !! 0%nat = Some (truncate_at sep s).
Proof.
  induction s as [|c rest IH]; simpl; [reflexivity|].
  destruct (Ascii.eqb c sep); [reflexivity|].
  destruct (strings.Split rest sep) as [|piece pieces]; simpl in *.
  - discriminate IH.
  - congruence.
Qed.

Lemma truncate_at_prefix sep p r :
  ~ occurs sep p -> truncate_at sep (p +:+ String sep r) = p.
Proof.
  induction p as [|c p IH]; simpl; intros Hp.
  - now rewrite Ascii.eqb_refl.
  - destruct (Ascii.eqb_spec c sep) as [->|_]; [tauto|].
    f_equal. apply IH. tauto.
Qed.

Lemma truncate_at_none sep d : ~ occurs sep d -> truncate_at sep d = d.
Proof.
  induction d as [|c d IH]; simpl; intros Hd; [reflexivity|].
  destruct (Ascii.eqb_spec c sep) as [->|_]; [tauto|].
  f_equal. apply IH. tauto.
Qed.

(** ** The channel monad *)

Lemma ret_bind {A B} (a : A) (f : A -> Chan B) : ret a ≫= f = f a.
Proof. unfold mbind, Chan_bind, bind, ret. now destruct (f a). Qed.

Lemma index_head (x : string) (l : list string) : index (x :: l) 0 = ret x.
Proof. reflexivity. Qed.

Lemma index_nil : index [] 0 = panic (PanicIndex 0 0).
Proof. reflexivity. Qed.

Lemma index_Split s sep : index (strings.Split s sep) 0 = ret (truncate_at sep s).
Proof. unfold index. now rewrite Split_head. Qed.

(** ** One peer *)

Lemma collectPeer_ok (t0 t1 t2 t3 t4 t5 t6 t7 : string) peer peer_ip ips :
  Peer.TailscaleIPs peer = peer_ip :: ips ->
  let labels := [ t0; t1; t2; t3; Peer.HostName peer;
                  truncate_at "." (Peer.DNSName peer); peer_ip;
                  strconv.Itoa (Peer.UserID peer) ] in
  collectPeer [t0; t1; t2; t3; t4; t5; t6; t7] peer
  = ([ metricOf PeerRxDesc (Peer.RxBytes peer) labels;
       metricOf PeerTxDesc (Peer.TxBytes peer) labels ], Returned tt).
Proof.
  intros Hips. unfold collectPeer. rewrite Hips, index_Split. reflexivity.
Qed.

Lemma collectPeer_no_address (t0 t1 t2 t3 t4 t5 t6 t7 : string) peer :
  Peer.TailscaleIPs peer = [] ->
  collectPeer [t0; t1; t2; t3; t4; t5; t6; t7] peer = ([], Panicked (PanicIndex 0 0)).
Proof.
  intros Hips. unfold collectPeer. rewrite Hips, index_Split. reflexivity.
Qed.

(** ** The loop over the peers *)

Section Loop.

Variable status : TailscaleStatus.
Variable self_ip : string.

Lemma body_ok kp :
  Peer.TailscaleIPs kp.2 <> [] ->
  loopBody status self_ip kp = (metricsOf status self_ip kp.2, Returned tt).
Proof.
  destruct kp as [k peer]; simpl. intros Hips. unfold metricsOf.
  destruct (Peer.TailscaleIPs peer) as [|peer_ip ips] eqn:E; [congruence|].
  unfold templateOf. erewrite collectPeer_ok by exact E. reflexivity.
Qed.

Lemma body_no_address kp :
  Peer.TailscaleIPs kp.2 = [] -> loopBody status self_ip kp = ([], Panicked (PanicIndex 0 0)).
Proof.
  destruct kp as [k peer]; simpl. intros Hips.
  unfold templateOf. now apply collectPeer_no_address.
Qed.

(** The loop sends the metrics of the peers in front of the first one
    without an address, and panics there; it returns when there is none. *)
Lemma range_ok order :
  Forall (fun kp => Peer.TailscaleIPs kp.2 <> []) order ->
  range order (loopBody status self_ip)
  = (flat_map (fun kp => metricsOf status self_ip kp.2) order, Returned tt).
Proof.
  induction 1 as [|kp order Hkp _ IH]; [reflexivity|].
  cbn [range flat_map]. rewrite (body_ok _ Hkp), IH. reflexivity.
Qed.

Lemma range_panics before kp after :
  Forall (fun kp => Peer.TailscaleIPs kp.2 <> []) before ->
  Peer.TailscaleIPs kp.2 = [] ->
  range (before ++ kp :: after) (loopBody status self_ip)
  = (flat_map (fun kp => metricsOf status self_ip kp.2) before,
     Panicked (PanicIndex 0 0)).
Proof.
  intros Hbefore Hkp.
  induction Hbefore as [|kp' before Hkp' _ IH]; cbn [app range flat_map].
  - rewrite (body_no_address _ Hkp). reflexivity.
  - rewrite (body_ok _ Hkp'), IH. reflexivity.
Qed.

(** Whatever the peers are, what the loop sends is the metrics of the
    peers at the front of the visiting order. *)
Lemma range_sent order :
  exists n out,
    range order (loopBody status self_ip)
    = (flat_map (fun kp => metricsOf status self_ip kp.2) (take n order), out).
Proof.
  induction order as [|kp order (n & out & IH)].
  - exists 0%nat, (Returned tt). reflexivity.
  - destruct (Peer.TailscaleIPs kp.2) as [|peer_ip ips] eqn:E.
    + exists 0%nat, (Panicked (PanicIndex 0 0)).
      cbn [range]. rewrite (body_no_address _ E). reflexivity.
    + assert (Hkp : Peer.TailscaleIPs kp.2 <> []) by congruence.
      exists (S n), out.
      cbn [range take flat_map]. rewrite (body_ok _ Hkp), IH. reflexivity.
Qed.

Lemma collectStatus_unfold ips order :
  Self.TailscaleIPs (Self status) = self_ip :: ips ->
  collectStatus status order = range order (loopBody status self_ip).
Proof.
  intros Hips. unfold collectStatus. rewrite Hips, index_Split, index_head.
  change (assign (replicate (length dynLabels) ""%string) 0 ?x)
    with (ret [x; ""; ""; ""; ""; ""; ""; ""]%string).
  rewrite ret_bind.
  change (assign [?a; ""; ""; ""; ""; ""; ""; ""]%string 1 ?x)
    with (ret [a; x; ""; ""; ""; ""; ""; ""]%string).
  rewrite !ret_bind.
  change (assign [?a; ?b; ""; ""; ""; ""; ""; ""]%string 2 ?x)
    with (ret [a; b; x; ""; ""; ""; ""; ""]%string).
  rewrite !ret_bind.
  change (assign [?a; ?b; ?c; ""; ""; ""; ""; ""]%string 3 ?x)
    with (ret [a; b; c; x; ""; ""; ""; ""]%string).
  rewrite ret_bind. reflexivity.
Qed.

End Loop.

Lemma collectStatus_no_self_address status order :
  Self.TailscaleIPs (Self status) = [] ->
  collectStatus status order = ([], Panicked (PanicIndex 0 0)).
Proof.
  intros Hips. unfold collectStatus. rewrite Hips, index_Split. reflexivity.
Qed.

Lemma metricsOf_length status self_ip peer :
  Peer.TailscaleIPs peer <> [] -> length (metricsOf status self_ip peer) = 2%nat.
Proof. unfold metricsOf. destruct (Peer.TailscaleIPs peer); [congruence|reflexivity]. Qed.

Lemma flat_map_metricsOf_length status self_ip order :
  Forall (fun kp : string * Peer.t => Peer.TailscaleIPs kp.2 <> []) order ->
  length (flat_map (fun kp => metricsOf status self_ip kp.2) order)
  = (2 * length order)%nat.
Proof.
  induction 1 as [|kp order Hkp _ IH]; [reflexivity|].
  cbn [flat_map]. rewrite length_app, IH, (metricsOf_length _ _ _ Hkp). simpl. lia.
Qed.

(** ** Visiting orders *)

Lemma visits_length m order : visits m order -> length order = size m.
Proof. unfold visits. intros ->. apply length_map_to_list. Qed.

Lemma visits_lookup m order k peer :
  visits m order -> (k, peer) ∈ order -> m !! k = Some peer.
Proof. unfold visits. intros Hp Hin. rewrite Hp in Hin. now apply elem_of_map_to_list. Qed.

Lemma visits_all_addressed m order :
  visits m order ->
  (forall k peer, m !! k = Some peer -> Peer.TailscaleIPs peer <> []) ->
  Forall (fun kp : string * Peer.t => Peer.TailscaleIPs kp.2 <> []) order.
Proof.
  intros Hv Hall. apply Forall_forall. intros [k peer] Hin. simpl.
  apply (Hall k). eapply visits_lookup; eauto.
Qed.

Lemma Collect_fetched json cmd status order :
  TailscaleGetStatus json cmd = inr status ->
  Collect json cmd order = collectStatus status order.
Proof. unfold Collect. now intros ->. Qed.

(** Every metric of a peer has the descriptor's eight labels, the self
    node's four values in front. *)
Lemma metricsOf_shape status self_ip peer m :
  m ∈ metricsOf status self_ip peer ->
  prometheus.variableLabels (prometheus.desc m) = dynLabels
  /\ (exists peer_ip ips, Peer.TailscaleIPs peer = peer_ip :: ips
        /\ prometheus.labelValues m = labelsOf status self_ip peer peer_ip)
  /\ (prometheus.desc m = PeerRxDesc /\ prometheus.val m = GoInt.float64 (Peer.RxBytes peer)
      \/ prometheus.desc m = PeerTxDesc /\ prometheus.val m = GoInt.float64 (Peer.TxBytes peer)).
Proof.
  unfold metricsOf. destruct (Peer.TailscaleIPs peer) as [|peer_ip ips].
  - intros H. inversion H.
  - intros H. apply elem_of_cons in H as [->|H]; [|apply list_elem_of_singleton in H as ->];
      (split; [reflexivity|split; [eauto|]]); [left|right]; split; reflexivity.
Qed.

(** C1. For a decoded status whose self node has an address and whose N
    peers each have one, a scrape returns after sending exactly 2N metrics,
    a received-bytes one followed by a transmitted-bytes one for every peer
    in visiting order; each carries the eight labels id, name, given_name,
    ip, peer_name, peer_given_name, peer_ip, peer_user_id in this order,
    with eight values, and the first four values are the same for all. *)
Theorem Collect_two_metrics_per_peer json cmd status order :
  TailscaleGetStatus json cmd = inr status ->
  visits (Peer status) order ->
  Self.TailscaleIPs (Self status) <> [] ->
  (forall k peer, Peer status !! k = Some peer -> Peer.TailscaleIPs peer <> []) ->
  exists sent first4,
    Collect json cmd order = (sent, Returned tt)
    /\ length sent = (2 * size (Peer status))%nat
    /\ prometheus.desc <$> sent = flat_map (fun _ => [PeerRxDesc; PeerTxDesc]) order
    /\ length first4 = 4%nat
    /\ Forall (fun m =>
         prometheus.variableLabels (prometheus.desc m)
         = ["id"; "name"; "given_name"; "ip";
            "peer_name"; "peer_given_name"; "peer_ip"; "peer_user_id"]%string
         /\ length (prometheus.labelValues m) = 8%nat
         /\ take 4 (prometheus.labelValues m) = first4) sent.
Proof.
  intros Hfetch Hvisits Hself Hpeers.
  destruct (Self.TailscaleIPs (Self status)) as [|self_ip ips] eqn:Hips; [congruence|].
  pose proof (visits_all_addressed _ _ Hvisits Hpeers) as Hall.
  exists (flat_map (fun kp => metricsOf status self_ip kp.2) order),
    [ Self.ID (Self status); Self.HostName (Self status);
      truncate_at "." (Self.DNSName (Self status)); self_ip ].
  split; [|split; [|split; [|split]]].
  - rewrite (Collect_fetched _ _ _ _ Hfetch), (collectStatus_unfold _ _ _ _ Hips).
    now apply range_ok.
  - rewrite (flat_map_metricsOf_length _ _ _ Hall). f_equal. now apply visits_length.
  - clear Hvisits. induction Hall as [|kp order Hkp _ IH]; [reflexivity|].
    cbn [flat_map]. rewrite fmap_app, IH. f_equal.
    unfold metricsOf. destruct (Peer.TailscaleIPs kp.2); [congruence|reflexivity].
  - reflexivity.
  - apply Forall_forall. intros m Hm.
    apply list_elem_of_In, in_flat_map in Hm as ([k peer] & _ & Hm).
    apply list_elem_of_In, metricsOf_shape in Hm as (Hdesc & (peer_ip & ips' & _ & Hlabels) & _).
    rewrite Hdesc, Hlabels. repeat split.
Qed.

(** C7. A decoded status whose self node has no address makes the scrape
    panic before the loop: nothing is sent, whatever the peers are. *)
Theorem Collect_no_self_address json cmd status order :
  TailscaleGetStatus json cmd = inr status ->
  Self.TailscaleIPs (Self status) = [] ->
  Collect json cmd order = ([], Panicked (PanicIndex 0 0)).
Proof.
  intros Hfetch Hips. rewrite (Collect_fetched _ _ _ _ Hfetch).
  now apply collectStatus_no_self_address.
Qed.

(** A metric a scrape sends belongs to a peer of the visiting order. *)
Lemma Collect_sent json cmd status order sent out m :
  TailscaleGetStatus json cmd = inr status ->
  Collect json cmd order = (sent, out) ->
  m ∈ sent ->
  exists self_ip ips k peer,
    Self.TailscaleIPs (Self status) = self_ip :: ips
    /\ (k, peer) ∈ order
    /\ m ∈ metricsOf status self_ip peer.
Proof.
  intros Hfetch Hcollect Hm. rewrite (Collect_fetched _ _ _ _ Hfetch) in Hcollect.
  destruct (Self.TailscaleIPs (Self status)) as [|self_ip ips] eqn:Hips.
  - rewrite (collectStatus_no_self_address _ _ Hips) in Hcollect.
    injection Hcollect as <- _. inversion Hm.
  - rewrite (collectStatus_unfold _ _ _ _ Hips) in Hcollect.
    destruct (range_sent status self_ip order) as (n & out' & Hrange).
    rewrite Hrange in Hcollect. injection Hcollect as <- _.
    apply list_elem_of_In, in_flat_map in Hm as ([k peer] & Hin & Hm).
    exists self_ip, ips, k, peer. split; [reflexivity|]. split.
    + apply list_elem_of_In in Hin. apply elem_of_take in Hin as (i & Hi & _).
      eapply list_elem_of_lookup_2; eauto.
    + now apply list_elem_of_In.
Qed.

(** ** The outcomes of a scrape *)

(** The loop either visits addressed peers only and returns, or panics
    at the first peer without an address. *)
Lemma range_cases status self_ip order :
  (Forall addressed order
   /\ range order (loopBody status self_ip)
      = (flat_map (fun kp => metricsOf status self_ip kp.2) order, Returned tt))
  \/ (exists before kp after,
        order = before ++ kp :: after
        /\ Forall addressed before
        /\ Peer.TailscaleIPs kp.2 = []
        /\ range order (loopBody status self_ip)
           = (flat_map (fun kp => metricsOf status self_ip kp.2) before,
              Panicked (PanicIndex 0 0))).
Proof.
  induction order as [|kp order IH].
  - left. split; [constructor|reflexivity].
  - destruct (Peer.TailscaleIPs kp.2) as [|peer_ip ips] eqn:E.
    + right. exists [], kp, order. split; [reflexivity|]. split; [constructor|].
      split; [exact E|]. now apply (range_panics status self_ip []).
    + assert (Hkp : addressed kp) by (unfold addressed; congruence).
      destruct IH as [[Hall Hrange]|(before & kp' & after & -> & Hbefore & Hkp' & Hrange)].
      * left. split; [now constructor|]. apply range_ok. now constructor.
      * right. exists (kp :: before), kp', after. split; [reflexivity|].
        split; [now constructor|]. split; [exact Hkp'|].
        apply (range_panics status self_ip (kp :: before)); [now constructor|exact Hkp'].
Qed.

Lemma Collect_cases json cmd order : Scrape json cmd order (Collect json cmd order).
Proof.
  unfold Collect. destruct (TailscaleGetStatus json cmd) as [err|status] eqn:Hfetch.
  - now constructor.
  - destruct (Self.TailscaleIPs (Self status)) as [|self_ip ips] eqn:Hips.
    + rewrite (collectStatus_no_self_address _ _ Hips). now apply ScrapeNoSelfAddress with status.
    + rewrite (collectStatus_unfold _ _ _ _ Hips).
      destruct (range_cases status self_ip order)
        as [[Hall ->]|(before & kp & after & Horder & Hbefore & Hkp & ->)].
      * now apply ScrapeDone with ips.
      * now apply ScrapeNoPeerAddress with ips kp after.
Qed.

(** C6. The given_name label of the self node and the one of a peer are
    the first piece of [strings.Split] of the node's DNS name at the dots,
    which is the DNS name cut at its first dot, the dot left out: the part
    in front of the first dot, and the whole name when it has no dot.
    Every metric of a scrape carries the cut of the self node's DNS name
    as its third label value and, as its fifth to eighth, the host name,
    the cut of the DNS name, the first address and the user of one and the
    same visited peer; and the metrics come in pairs that carry, pair by
    pair, the cuts of the DNS names of the peers in the order of the
    visit, of all of them when the scrape returns. *)
Theorem given_name_is_first_segment :
  (forall d, strings.Split d "." !! 0%nat = Some (truncate_at "." d))
  /\ (forall p r, ~ occurs "." p -> truncate_at "." (p +:+ String "." r) = p)
  /\ (forall d, ~ occurs "." d -> truncate_at "." d = d)
  /\ (forall json cmd status order sent out,
        TailscaleGetStatus json cmd = inr status ->
        Collect json cmd order = (sent, out) ->
        (forall m, m ∈ sent ->
           prometheus.labelValues m !! 2%nat
           = Some (truncate_at "." (Self.DNSName (Self status)))
           /\ exists k peer,
                (k, peer) ∈ order
                /\ prometheus.labelValues m !! 4%nat = Some (Peer.HostName peer)
                /\ prometheus.labelValues m !! 5%nat
                   = Some (truncate_at "." (Peer.DNSName peer))
                /\ prometheus.labelValues m !! 6%nat = Peer.TailscaleIPs peer !! 0%nat
                /\ prometheus.labelValues m !! 7%nat
                   = Some (strconv.Itoa (Peer.UserID peer)))
        /\ exists visited rest,
             order = visited ++ rest
             /\ (out = Returned tt -> visited = order)
             /\ (fun m => (prometheus.labelValues m !! 2%nat,
                           prometheus.labelValues m !! 5%nat)) <$> sent
                = flat_map
                    (fun kp : string * Peer.t =>
                       [ (Some (truncate_at "." (Self.DNSName (Self status))),
                          Some (truncate_at "." (Peer.DNSName kp.2)));
                         (Some (truncate_at "." (Self.DNSName (Self status))),
                          Some (truncate_at "." (Peer.DNSName kp.2))) ])
                    visited).
Proof.
  split; [|split; [|split]].
  - intros d. apply Split_head.
  - intros p r. apply truncate_at_prefix.
  - intros d. apply truncate_at_none.
  - intros json cmd status order sent out Hfetch Hcollect. split.
    + intros m Hm.
      destruct (Collect_sent _ _ _ _ _ _ _ Hfetch Hcollect Hm)
        as (self_ip & ips & k & peer & _ & Hin & Hof).
      apply metricsOf_shape in Hof as (_ & (peer_ip & ips' & Hpeer & ->) & _).
      split; [reflexivity|]. exists k, peer. split; [assumption|].
      rewrite Hpeer. repeat split.
    + assert (Hnames : forall self_ip l,
                Forall addressed l ->
                (fun m => (prometheus.labelValues m !! 2%nat,
                           prometheus.labelValues m !! 5%nat))
                  <$> flat_map (fun kp : string * Peer.t => metricsOf status self_ip kp.2) l
                = flat_map
                    (fun kp : string * Peer.t =>
                       [ (Some (truncate_at "." (Self.DNSName (Self status))),
                          Some (truncate_at "." (Peer.DNSName kp.2)));
                         (Some (truncate_at "." (Self.DNSName (Self status))),
                          Some (truncate_at "." (Peer.DNSName kp.2))) ]) l).
      { intros self_ip l. induction 1 as [|kp l Hkp _ IH]; [reflexivity|].
        cbn [flat_map]. rewrite fmap_app, IH. f_equal.
        unfold addressed in Hkp. unfold metricsOf.
        destruct (Peer.TailscaleIPs kp.2); [congruence|reflexivity]. }
      pose proof (Collect_cases json cmd order) as Hcase. rewrite Hcollect in Hcase.
      inversion Hcase
        as [err Hfetch'|status' Hfetch' Hips|status' self_ip ips Hfetch' Hips Hall
           |status' self_ip ips before kp after Hfetch' Hips Horder Hbefore Hkp];
        try (assert (status' = status) as -> by congruence).
      * congruence.
      * exists [], order. split; [reflexivity|]. split; [discriminate|reflexivity].
      * exists order, []. split; [now rewrite app_nil_r|]. split; [reflexivity|].
        now apply Hnames.
      * exists before, (kp :: after). split; [exact Horder|]. split; [discriminate|].
        now apply Hnames.
Qed.

Example given_name_host1 : truncate_at "." "host1.tailnetxyz.ts.net" = "host1"%string.
Proof. reflexivity. Qed.

(** C9. A scrape is not all-or-nothing.  When the loop reaches a peer
    without an address it panics, and the two metrics of each peer visited
    before stay sent; so a status with an addressed peer and an unaddressed
    one has a visiting order in which the failed scrape has sent some of
    the metrics and not all. *)
Theorem Collect_not_atomic json cmd status self_ip ips :
  TailscaleGetStatus json cmd = inr status ->
  Self.TailscaleIPs (Self status) = self_ip :: ips ->
  (forall before kp after,
      Forall (fun kp : string * Peer.t => Peer.TailscaleIPs kp.2 <> []) before ->
      Peer.TailscaleIPs kp.2 = [] ->
      exists sent,
        Collect json cmd (before ++ kp :: after) = (sent, Panicked (PanicIndex 0 0))
        /\ sent = flat_map (fun kp => metricsOf status self_ip kp.2) before
        /\ length sent = (2 * length before)%nat)
  /\ (forall k0 p0 k1 p1,
        Peer status !! k0 = Some p0 -> Peer.TailscaleIPs p0 = [] ->
        Peer status !! k1 = Some p1 -> Peer.TailscaleIPs p1 <> [] ->
        exists order sent p,
          visits (Peer status) order
          /\ Collect json cmd order = (sent, Panicked p)
          /\ (0 < length sent < 2 * size (Peer status))%nat).
Proof.
  intros Hfetch Hips.
  assert (Hgen : forall before kp after,
      Forall (fun kp : string * Peer.t => Peer.TailscaleIPs kp.2 <> []) before ->
      Peer.TailscaleIPs kp.2 = [] ->
      Collect json cmd (before ++ kp :: after)
      = (flat_map (fun kp => metricsOf status self_ip kp.2) before,
         Panicked (PanicIndex 0 0))).
  { intros before kp after Hbefore Hkp.
    rewrite (Collect_fetched _ _ _ _ Hfetch), (collectStatus_unfold _ _ _ _ Hips).
    now apply range_panics. }
  split.
  - intros before kp after Hbefore Hkp. eexists. split; [now apply Hgen|].
    split; [reflexivity|]. now apply flat_map_metricsOf_length.
  - intros k0 p0 k1 p1 H0 Hp0 H1 Hp1.
    assert (Hne : k1 <> k0) by (intros ->; congruence).
    set (rest := map_to_list (delete k0 (delete k1 (Peer status)))).
    assert (Hvisits : visits (Peer status) ([(k1, p1)] ++ (k0, p0) :: rest)).
    { unfold visits, rest. simpl.
      rewrite <- (map_to_list_delete (Peer status) k1 p1 H1).
      constructor.
      apply (map_to_list_delete (delete k1 (Peer status)) k0 p0).
      now rewrite lookup_delete_ne. }
    exists ([(k1, p1)] ++ (k0, p0) :: rest).
    eexists. exists (PanicIndex 0 0).
    split; [exact Hvisits|]. split.
    + apply Hgen; [|exact Hp0]. repeat constructor. exact Hp1.
    + apply visits_length in Hvisits. rewrite <- Hvisits.
      simpl. rewrite length_app, (metricsOf_length _ _ _ Hp1). simpl. lia.
Qed.

(** ** [float64] of an integer *)

Lemma digits2_pos_iter_xO m d :
  digits2_pos (Pos.iter xO m d) = (digits2_pos m + d)%positive.
Proof.
  induction d as [|d IH] using Pos.peano_ind.
  - simpl. lia.
  - rewrite Pos.iter_succ. simpl. rewrite IH. lia.
Qed.

Lemma Zpos_iter_xO m d : Zpos (Pos.iter xO m d) = Zpos m * 2 ^ Zpos d.
Proof.
  induction d as [|d IH] using Pos.peano_ind.
  - simpl. lia.
  - rewrite Pos.iter_succ, Pos2Z.inj_xO, IH, Pos2Z.inj_succ, Z.pow_succ_r by lia. lia.
Qed.

Lemma digits2_pos_lower m : 2 ^ (Zpos (digits2_pos m) - 1) <= Zpos m.
Proof.
  induction m as [m IH|m IH|]; simpl digits2_pos.
  - rewrite Pos2Z.inj_succ. replace (Z.succ (Z.pos (digits2_pos m)) - 1) with (Z.succ (Z.pos (digits2_pos m) - 1)) by lia.
    rewrite Z.pow_succ_r by lia. lia.
  - rewrite Pos2Z.inj_succ. replace (Z.succ (Z.pos (digits2_pos m)) - 1) with (Z.succ (Z.pos (digits2_pos m) - 1)) by lia.
    rewrite Z.pow_succ_r by lia. lia.
  - simpl. lia.
Qed.

Lemma digits2_pos_small m : Zpos m < 2 ^ 53 -> Zpos (digits2_pos m) <= 53.
Proof.
  intros Hm. destruct (Z.le_gt_cases (Zpos (digits2_pos m)) 53) as [H|H]; [exact H|].
  pose proof (digits2_pos_lower m) as Hl.
  assert (2 ^ 53 <= 2 ^ (Zpos (digits2_pos m) - 1)) by (apply Z.pow_le_mono_r; lia).
  lia.
Qed.

Lemma binary_round_aux_canonical s m e :
  Zpos (digits2_pos m) = 53 -> -1074 <= e <= 971 ->
  binary_round_aux 53 1024 s (Zpos m) e loc_Exact = S754_finite s m e.
Proof.
  intros Hd He. unfold binary_round_aux, shr_fexp.
  match goal with
  | |- context [shr _ e ?n] =>
      assert (Hf : n = 0) by (unfold fexp, emin; simpl Zdigits2; lia);
      rewrite Hf
  end.
  cbn [shr shr_record_of_loc shr_m round_nearest_even loc_of_shr_record].
  match goal with
  | |- context [shr _ e ?n] =>
      assert (Hf' : n = 0) by (unfold fexp, emin; simpl Zdigits2; lia);
      rewrite Hf'
  end.
  cbn [shr shr_record_of_loc shr_m].
  destruct (Z.leb_spec e (1024 - 53)); [reflexivity|lia].
Qed.

Lemma binary_round_small s m :
  Zpos m < 2 ^ 53 ->
  exists m' e, binary_round 53 1024 s m 0 = S754_finite s m' e
    /\ e <= 0 /\ Zpos m' = Zpos m * 2 ^ (- e).
Proof.
  intros Hm. pose proof (digits2_pos_small m Hm) as Hd.
  unfold binary_round.
  match goal with
  | |- context [shl_align m 0 ?x] =>
      assert (Hf : x = Zpos (digits2_pos m) - 53) by (unfold fexp, emin; lia);
      rewrite Hf
  end.
  remember (Zpos (digits2_pos m) - 53) as e eqn:E.
  unfold shl_align.
  match goal with
  | |- context [match ?n with Z0 => _ | Zpos _ => _ | Zneg _ => _ end] =>
      assert (Hn : n = e) by lia; rewrite Hn
  end.
  destruct e as [|d|d]; [| lia |].
  - exists m, 0. split; [apply binary_round_aux_canonical; lia|]. simpl. lia.
  - exists (Pos.iter xO m d), (Zneg d). split; [|split; [lia|]].
    + apply binary_round_aux_canonical; [|lia].
      rewrite digits2_pos_iter_xO. lia.
    + rewrite Zpos_iter_xO. reflexivity.
Qed.

Lemma float64_value_round s m m' e :
  e <= 0 -> Zpos m' = Zpos m * 2 ^ (- e) ->
  float64_is (S754_finite s m' e) (cond_Zopp s (Zpos m)).
Proof.
  intros He Hm'. unfold float64_is, float64_value, Qeq.
  destruct e as [|d|d]; [| lia |]; cbn [Qnum Qden inject_Z].
  - change (2 ^ (- 0)) with 1 in Hm'. destruct s; simpl cond_Zopp; lia.
  - change (- Z.neg d) with (Z.pos d) in Hm'. rewrite Pos2Z.inj_pow.
    destruct s; cbn [cond_Zopp]; rewrite ?Pos2Z.opp_pos; lia.
Qed.

Lemma float64_exact n : Z.abs n <= 2 ^ 53 -> float64_is (GoInt.float64 n) n.
Proof.
  intros Hn.
  destruct (Z.eq_dec (Z.abs n) (2 ^ 53)) as [Hmax|Hlt].
  - assert (n = 2 ^ 53 \/ n = - 2 ^ 53) as [-> | ->] by lia; vm_compute; reflexivity.
  - destruct n as [|m|m]; unfold GoInt.float64, binary_normalize.
    + reflexivity.
    + destruct (binary_round_small false m) as (m' & e & -> & He & Hm'); [lia|].
      now apply (float64_value_round false).
    + destruct (binary_round_small true m) as (m' & e & -> & He & Hm'); [lia|].
      now apply (float64_value_round true).
Qed.

Example float64_small : float64_is (GoInt.float64 10) 10.
Proof. vm_compute. reflexivity. Qed.

(** Above 2^53 the conversion rounds: 2^53 + 1 becomes 2^53. *)
Example float64_rounds :
  GoInt.float64 9007199254740993 = GoInt.float64 9007199254740992
  /\ ~ float64_is (GoInt.float64 9007199254740993) 9007199254740993.
Proof. split; [reflexivity|]. vm_compute. discriminate. Qed.

(** C8, as the program has it.  The value of a metric a scrape sends is
    the [float64] conversion of the received (for [tailscale_peer_rx]) or
    transmitted (for [tailscale_peer_tx]) byte count the decoded status
    reports for the metric's peer, and nothing else is computed from it;
    that value is the byte count itself whenever the count is at most 2^53
    in magnitude. *)
Theorem Collect_value_is_float64_of_count json cmd status order sent out m :
  TailscaleGetStatus json cmd = inr status ->
  visits (Peer status) order ->
  Collect json cmd order = (sent, out) ->
  m ∈ sent ->
  exists k peer self_ip peer_ip,
    Peer status !! k = Some peer
    /\ prometheus.labelValues m = labelsOf status self_ip peer peer_ip
    /\ prometheus.valType m = prometheus.CounterValue
    /\ (prometheus.desc m = PeerRxDesc
        /\ prometheus.val m = GoInt.float64 (Peer.RxBytes peer)
        /\ (Z.abs (Peer.RxBytes peer) <= 2 ^ 53 ->
            float64_is (prometheus.val m) (Peer.RxBytes peer))
        \/ prometheus.desc m = PeerTxDesc
           /\ prometheus.val m = GoInt.float64 (Peer.TxBytes peer)
           /\ (Z.abs (Peer.TxBytes peer) <= 2 ^ 53 ->
               float64_is (prometheus.val m) (Peer.TxBytes peer))).
Proof.
  intros Hfetch Hvisits Hcollect Hm.
  destruct (Collect_sent _ _ _ _ _ _ _ Hfetch Hcollect Hm)
    as (self_ip & ips & k & peer & _ & Hin & Hof).
  assert (Hty : prometheus.valType m = prometheus.CounterValue).
  { unfold metricsOf in Hof. destruct (Peer.TailscaleIPs peer); [inversion Hof|].
    apply elem_of_cons in Hof as [->|Hof]; [reflexivity|].
    apply list_elem_of_singleton in Hof as ->. reflexivity. }
  apply metricsOf_shape in Hof as (_ & (peer_ip & ips' & _ & Hlabels) & Hval).
  exists k, peer, self_ip, peer_ip.
  split; [eapply visits_lookup; eauto|]. split; [exact Hlabels|]. split; [exact Hty|].
  destruct Hval as [[Hd Hv]|[Hd Hv]]; [left|right];
    (split; [exact Hd|split; [exact Hv|]]); rewrite Hv; apply float64_exact.
Qed.

(** ** The status fetch *)

Section Fetch.

Variable json : string -> string + TailscaleStatus.

Lemma Run_nonzero cmd code :
  exec.State cmd = exec.Exited code -> code <> 0 ->
  exec.Run cmd = Some ("exit status " +:+ strconv.Itoa code).
Proof. unfold exec.Run. intros -> Hcode. destruct code; congruence. Qed.

Lemma Run_zero cmd : exec.State cmd = exec.Exited 0 -> exec.Run cmd = None.
Proof. unfold exec.Run. now intros ->. Qed.

Lemma getListenAddr_first cmd status first others :
  TailscaleGetStatus json cmd = inr status ->
  Self.TailscaleIPs (Self status) = first :: others ->
  getListenAddr json cmd = inr first.
Proof. unfold getListenAddr. now intros -> ->. Qed.

Lemma getListenAddr_no_ips cmd status :
  TailscaleGetStatus json cmd = inr status ->
  Self.TailscaleIPs (Self status) = [] ->
  getListenAddr json cmd = inl ErrNoIps.
Proof. unfold getListenAddr. now intros -> ->. Qed.

(** ** One turn of the watchdog *)

Lemma incr_small errors : 0 <= errors < 2 ^ 62 -> GoInt.incr errors = errors + 1.
Proof.
  intros H. unfold GoInt.incr, GoInt.wrap. rewrite Z.mod_small; lia.
Qed.

Lemma turn_same ip errors cmd :
  getListenAddr json cmd = inr ip -> turn json ip errors cmd = Loop errors.
Proof. unfold turn. intros ->. now rewrite String.eqb_refl. Qed.

Lemma turn_other ip errors cmd newIp :
  getListenAddr json cmd = inr newIp -> newIp <> ip ->
  turn json ip errors cmd = Dead (ExitFatal ip newIp).
Proof.
  unfold turn. intros -> Hne.
  destruct (String.eqb_spec newIp ip); [contradiction|reflexivity].
Qed.

Lemma turn_failure_counted ip errors cmd err :
  getListenAddr json cmd = inl err -> 0 <= errors < 20 ->
  turn json ip errors cmd = Loop (errors + 1).
Proof.
  unfold turn. intros -> H. rewrite incr_small by lia.
  destruct (Z.gtb_spec (errors + 1) 20); [lia|reflexivity].
Qed.

Lemma turn_failure_fatal ip cmd err :
  getListenAddr json cmd = inl err ->
  turn json ip 20 cmd = Dead (ExitPanicErrorf ("on update ip: " +:+ Error err)).
Proof. unfold turn. now intros ->. Qed.

(** ** The loop *)

Lemma watchdog_app ip errors runs1 runs2 :
  watchdog json ip errors (runs1 ++ runs2)
  = match watchdog json ip errors runs1 with
    | Loop errors' => watchdog json ip errors' runs2
    | Dead how => Dead how
    end.
Proof.
  revert errors. induction runs1 as [|cmd runs1 IH]; intros errors; simpl; [reflexivity|].
  destruct (turn json ip errors cmd); [apply IH|reflexivity].
Qed.

Lemma failures_cons cmd runs :
  failures json (cmd :: runs)
  = (if fails json cmd then 1 else 0) + failures json runs.
Proof.
  unfold failures. cbn [List.filter]. destruct (fails json cmd); cbn [length]; lia.
Qed.

Lemma failures_nonneg runs : 0 <= failures json runs.
Proof. unfold failures. lia. Qed.

Lemma fails_true cmd :
  fails json cmd = true -> exists err, getListenAddr json cmd = inl err.
Proof. unfold fails. destruct (getListenAddr json cmd); [eauto|discriminate]. Qed.

(** As long as every successful run reports the address [ip] and no more
    than 20 failures are counted, the loop goes on and has counted the
    failures, those before a success included. *)
Lemma watchdog_counts ip runs : forall errors,
  Forall (fun cmd => fails json cmd = false -> getListenAddr json cmd = inr ip) runs ->
  0 <= errors -> errors + failures json runs <= 20 ->
  watchdog json ip errors runs = Loop (errors + failures json runs).
Proof.
  induction runs as [|cmd runs IH]; intros errors Hruns H0 Hle.
  - simpl. f_equal. unfold failures. simpl. lia.
  - apply Forall_cons in Hruns as [Hcmd Hruns]. cbn [watchdog].
    rewrite failures_cons in Hle |- *. pose proof (failures_nonneg runs).
    destruct (fails json cmd) eqn:E.
    + apply fails_true in E as [err E].
      rewrite (turn_failure_counted _ _ _ err E) by lia.
      rewrite IH by (assumption || lia). f_equal. lia.
    + rewrite (turn_same _ _ _ (Hcmd eq_refl)).
      rewrite IH by (assumption || lia). f_equal.
  Qed.

Lemma failures_all_fail runs :
  Forall (fun cmd => fails json cmd = true) runs ->
  failures json runs = Z.of_nat (length runs).
Proof.
  induction 1 as [|cmd runs Hcmd _ IH]; [reflexivity|].
  rewrite failures_cons, Hcmd, IH. cbn [length]. lia.
Qed.

Lemma all_fail_counts runs :
  Forall (fun cmd => fails json cmd = true) runs ->
  forall ip, Forall (fun cmd => fails json cmd = false -> getListenAddr json cmd = inr ip) runs.
Proof. intros H ip. eapply Forall_impl; [exact H|]. simpl. congruence. Qed.

(** The failure that finds 20 counted ends the process. *)
Lemma watchdog_gives_up ip runs : forall errors,
  Forall (fun cmd => fails json cmd = true) runs ->
  0 <= errors <= 20 -> 21 <= errors + Z.of_nat (length runs) ->
  exists err,
    watchdog json ip errors runs = Dead (ExitPanicErrorf ("on update ip: " +:+ Error err)).
Proof.
  induction runs as [|cmd runs IH]; intros errors Hruns H0 Hle.
  - simpl in Hle. lia.
  - apply Forall_cons in Hruns as [Hcmd Hruns]. cbn [watchdog].
    apply fails_true in Hcmd as [err E].
    destruct (Z.eq_dec errors 20) as [->|Hne].
    + exists err. now rewrite (turn_failure_fatal _ _ err E).
    + rewrite (turn_failure_counted _ _ _ err E) by lia.
      apply IH; [assumption|lia|]. cbn [length] in Hle. lia.
Qed.

End Fetch.

(** C4, as the program has it.  The fetch fails with the error of the
    first kind exactly when [cmd.Run] returns an error, which a non-zero
    exit status makes it do; the error's text ends with what the command
    wrote to its diagnostic stream.  After an exit with status zero the
    diagnostic stream is not looked at: the result is the decoder's, on the
    standard output alone. *)
Theorem TailscaleGetStatus_command_failure json cmd :
  (forall err, exec.Run cmd = Some err ->
     TailscaleGetStatus json cmd = inl (ErrNodesList err (exec.Stderr cmd))
     /\ Error (ErrNodesList err (exec.Stderr cmd))
        = "error on headscale nodes list: " +:+ err +:+ ". stderr: " +:+ exec.Stderr cmd)
  /\ (forall code, exec.State cmd = exec.Exited code -> code <> 0 ->
        exists err, exec.Run cmd = Some err)
  /\ (exec.State cmd = exec.Exited 0 ->
        TailscaleGetStatus json cmd
        = match json (exec.Stdout cmd) with
          | inl err => inl (ErrUnmarshal err (exec.Stdout cmd))
          | inr status => inr status
          end).
Proof.
  split; [|split].
  - intros err Hrun. unfold TailscaleGetStatus. rewrite Hrun. split; reflexivity.
  - intros code Hstate Hcode. eexists. exact (Run_nonzero cmd code Hstate Hcode).
  - intros Hstate. unfold TailscaleGetStatus. now rewrite (Run_zero _ Hstate).
Qed.

(** C2, as the program has it.  A turn whose fetch succeeds and reports
    the address the server is bound to leaves the failure counter as it is
    and the loop goes on; after 19 failures followed by such a success the
    counter is 19 and the process lives. *)
Theorem watchdog_success_keeps_counter json ip cmd :
  getListenAddr json cmd = inr ip ->
  (forall errors, turn json ip errors cmd = Loop errors)
  /\ (forall failed,
        length failed = 19%nat ->
        Forall (fun c => fails json c = true) failed ->
        watchdog json ip 0 (failed ++ [cmd]) = Loop 19).
Proof.
  intros Hcmd. split.
  - intros errors. now apply turn_same.
  - intros failed Hlen Hfailed. rewrite watchdog_app.
    rewrite (watchdog_counts json ip failed 0);
      rewrite ?(failures_all_fail json failed Hfailed), ?Hlen;
      [|now apply all_fail_counts|lia|simpl; lia].
    simpl. now rewrite (turn_same json ip _ cmd Hcmd).
Qed.

(** C3, as the program has it.  From a counter of 0, the 21st failure in
    a row ends the process with a panic, the counter then exceeding 20; up
    to 20 failures the loop goes on, with the failures counted. *)
Theorem watchdog_gives_up_at_21 json ip runs :
  Forall (fun cmd => fails json cmd = true) runs ->
  ((length runs <= 20)%nat ->
     watchdog json ip 0 runs = Loop (Z.of_nat (length runs)))
  /\ ((21 <= length runs)%nat ->
        exists err,
          watchdog json ip 0 runs = Dead (ExitPanicErrorf ("on update ip: " +:+ Error err))
          /\ state_of (watchdog json ip 0 runs) = Terminated).
Proof.
  intros Hruns. split.
  - intros Hlen.
    rewrite (watchdog_counts json ip runs 0);
      rewrite ?(failures_all_fail json runs Hruns);
      [reflexivity|now apply all_fail_counts|lia|lia].
  - intros Hlen.
    destruct (watchdog_gives_up json ip runs 0 Hruns) as [err Herr]; [lia|lia|].
    exists err. rewrite Herr. split; reflexivity.
Qed.

(** C5. With the server bound to the address [A] read at start-up, the
    watchdog stays in its running state through any sequence of turns
    whose fetches all succeed and report [A]; and a turn whose fetch
    succeeds and reports another address ends the process right there,
    whatever the failure counter is and whatever would come next. *)
Theorem watchdog_identity_drift json boot A :
  getListenAddr json boot = inr A ->
  (forall runs,
     Forall (fun cmd => getListenAddr json cmd = inr A) runs ->
     main json boot runs = Loop 0 /\ state_of (main json boot runs) = Running)
  /\ (forall runs cmd B rest,
        Forall (fun cmd => getListenAddr json cmd = inr A) runs ->
        getListenAddr json cmd = inr B -> B <> A ->
        main json boot (runs ++ cmd :: rest) = Dead (ExitFatal A B)
        /\ state_of (main json boot (runs ++ cmd :: rest)) = Terminated)
  /\ (forall errors cmd B,
        getListenAddr json cmd = inr B -> B <> A ->
        turn json A errors cmd = Dead (ExitFatal A B)).
Proof.
  intros Hboot.
  assert (Hstay : forall runs errors,
             Forall (fun cmd => getListenAddr json cmd = inr A) runs ->
             watchdog json A errors runs = Loop errors).
  { intros runs errors. induction 1 as [|cmd runs Hcmd _ IH]; [reflexivity|].
    simpl. now rewrite (turn_same json A errors cmd Hcmd). }
  split; [|split].
  - intros runs Hruns. unfold main. rewrite Hboot, (Hstay _ _ Hruns). split; reflexivity.
  - intros runs cmd B rest Hruns Hcmd HB. unfold main.
    rewrite Hboot, watchdog_app, (Hstay _ _ Hruns). simpl.
    rewrite (turn_other json A 0 cmd B Hcmd HB). split; reflexivity.
  - intros errors cmd B Hcmd HB. now apply turn_other.
Qed.

(** C10. The watchdog looks at the first address of the self node only.
    When the fetch succeeds and the first listed address differs from the
    address read at start-up, the turn ends the process, whatever the
    other addresses are, the start-up address among them or not; when the
    first listed address is the start-up address, the turn does not end
    the process, whatever the other addresses are. *)
Theorem watchdog_compares_first_address json ip errors cmd status first others :
  TailscaleGetStatus json cmd = inr status ->
  Self.TailscaleIPs (Self status) = first :: others ->
  getListenAddr json cmd = inr first
  /\ (first <> ip -> turn json ip errors cmd = Dead (ExitFatal ip first))
  /\ (first = ip -> turn json ip errors cmd = Loop errors).
Proof.
  intros Hfetch Hips.
  pose proof (getListenAddr_first json cmd status first others Hfetch Hips) as Haddr.
  split; [exact Haddr|]. split.
  - intros Hne. now apply turn_other.
  - intros <-. now apply turn_same.
Qed.

(** * The properties at the sample documents *)

(** The scrape of the design's end-to-end example: self at 100.64.0.1,
    one peer at 100.64.0.2 with 10 bytes received, 20 sent, user 5. *)
Example Collect_one_peer :
  Collect Sample.json_Unmarshal (Sample.prints "one_peer.json")
    (map_to_list (Peer Sample.one_peer))
  = ([ metricOf PeerRxDesc 10
         ["n0"; "host1"; "host1"; "100.64.0.1"; "peer1"; "peer1"; "100.64.0.2"; "5"]%string;
       metricOf PeerTxDesc 20
         ["n0"; "host1"; "host1"; "100.64.0.1"; "peer1"; "peer1"; "100.64.0.2"; "5"]%string ],
     Returned tt).
Proof. vm_compute. reflexivity. Qed.

Lemma Collect_two_metrics_per_peer_witness :
  exists sent first4,
    Collect Sample.json_Unmarshal (Sample.prints "one_peer.json")
      (map_to_list (Peer Sample.one_peer)) = (sent, Returned tt)
    /\ length sent = (2 * size (Peer Sample.one_peer))%nat
    /\ prometheus.desc <$> sent
       = flat_map (fun _ => [PeerRxDesc; PeerTxDesc]) (map_to_list (Peer Sample.one_peer))
    /\ length first4 = 4%nat
    /\ Forall (fun m =>
         prometheus.variableLabels (prometheus.desc m)
         = ["id"; "name"; "given_name"; "ip";
            "peer_name"; "peer_given_name"; "peer_ip"; "peer_user_id"]%string
         /\ length (prometheus.labelValues m) = 8%nat
         /\ take 4 (prometheus.labelValues m) = first4) sent.
Proof.
  apply (Collect_two_metrics_per_peer Sample.json_Unmarshal
           (Sample.prints "one_peer.json") Sample.one_peer).
  - reflexivity.
  - unfold visits. reflexivity.
  - simpl. discriminate.
  - intros k peer H. unfold Sample.one_peer in H. cbn [Peer] in H.
    apply lookup_singleton_Some in H as [_ <-]. simpl. discriminate.
Defined.

Lemma Collect_no_self_address_witness :
  Collect Sample.json_Unmarshal (Sample.prints "no_self_address.json")
    (map_to_list (Peer Sample.no_self_address))
  = ([], Panicked (PanicIndex 0 0)).
Proof.
  apply (Collect_no_self_address Sample.json_Unmarshal
           (Sample.prints "no_self_address.json") Sample.no_self_address);
    reflexivity.
Defined.

(** The scrape of a status with two peers, "peer1..." and "peer3...":
    each pair of metrics carries the cut of its own peer's DNS name. *)
Lemma given_name_is_first_segment_witness :
  truncate_at "." ("host1" +:+ String "." "tailnetxyz.ts.net") = "host1"%string
  /\ truncate_at "." "peer2" = "peer2"%string
  /\ map_to_list (Peer Sample.peers_1_3)
     = [("nodekey:03"%string, Sample.p3); ("nodekey:01"%string, Sample.p1)]
  /\ (fun m => (prometheus.labelValues m !! 2%nat, prometheus.labelValues m !! 5%nat))
       <$> (Collect Sample.json_Unmarshal_more (Sample.prints "peers_1_3.json")
              (map_to_list (Peer Sample.peers_1_3))).1
     = [ (Some "host1", Some "peer3"); (Some "host1", Some "peer3");
         (Some "host1", Some "peer1"); (Some "host1", Some "peer1") ]%string.
Proof.
  destruct given_name_is_first_segment as (_ & Hcut & Hwhole & Hcollect).
  split; [|split; [|split]].
  - apply (Hcut "host1"%string "tailnetxyz.ts.net"%string). simpl. intuition discriminate.
  - apply (Hwhole "peer2"%string). simpl. intuition discriminate.
  - vm_compute. reflexivity.
  - assert (Hrun : Collect Sample.json_Unmarshal_more (Sample.prints "peers_1_3.json")
                     (map_to_list (Peer Sample.peers_1_3))
                   = ((Collect Sample.json_Unmarshal_more (Sample.prints "peers_1_3.json")
                         (map_to_list (Peer Sample.peers_1_3))).1, Returned tt))
      by (vm_compute; reflexivity).
    destruct (Hcollect Sample.json_Unmarshal_more (Sample.prints "peers_1_3.json")
                Sample.peers_1_3 (map_to_list (Peer Sample.peers_1_3)) _ _ eq_refl Hrun)
      as (_ & visited & rest & _ & Hall & Hnames).
    rewrite Hnames, (Hall eq_refl). vm_compute. reflexivity.
Defined.

(** The peer without an address is visited second: the first peer's two
    metrics are out when the scrape panics. *)
Lemma Collect_not_atomic_witness :
  (exists sent,
     Collect Sample.json_Unmarshal (Sample.prints "two_peers.json")
       ([("nodekey:01"%string, Sample.p1)] ++ ("nodekey:02"%string, Sample.p2) :: [])
     = (sent, Panicked (PanicIndex 0 0))
     /\ sent = flat_map (fun kp => metricsOf Sample.two_peers "100.64.0.1" kp.2)
                 [("nodekey:01"%string, Sample.p1)]
     /\ length sent = (2 * length [("nodekey:01"%string, Sample.p1)])%nat)
  /\ (exists order sent p,
        visits (Peer Sample.two_peers) order
        /\ Collect Sample.json_Unmarshal (Sample.prints "two_peers.json") order
           = (sent, Panicked p)
        /\ (0 < length sent < 2 * size (Peer Sample.two_peers))%nat).
Proof.
  destruct (Collect_not_atomic Sample.json_Unmarshal (Sample.prints "two_peers.json")
              Sample.two_peers "100.64.0.1"%string ["fd7a::1"%string]
              eq_refl eq_refl) as [Habort Hsome].
  split.
  - apply Habort.
    + repeat constructor. simpl. discriminate.
    + reflexivity.
  - apply (Hsome "nodekey:02"%string Sample.p2 "nodekey:01"%string Sample.p1).
    + vm_compute. reflexivity.
    + reflexivity.
    + vm_compute. reflexivity.
    + simpl. discriminate.
Defined.

(** The received-bytes metric of a peer that reports 2^53 + 1 bytes does
    not carry that number: the claim of exactness fails there. *)
Lemma Collect_value_rounded :
  exists sent out m,
    Collect Sample.json_Unmarshal (Sample.prints "big_counter.json")
      (map_to_list (Peer Sample.big_counter)) = (sent, out)
    /\ m ∈ sent
    /\ prometheus.desc m = PeerRxDesc
    /\ Peer.RxBytes Sample.p3 = 9007199254740993
    /\ ~ float64_is (prometheus.val m) (Peer.RxBytes Sample.p3).
Proof.
  eexists _, _, _.
  split; [vm_compute; reflexivity|].
  split; [apply list_elem_of_here|].
  split; [reflexivity|]. split; [reflexivity|].
  vm_compute. discriminate.
Qed.

Lemma Collect_value_is_float64_of_count_witness :
  exists k peer self_ip peer_ip,
    Peer Sample.one_peer !! k = Some peer
    /\ prometheus.labelValues
         (metricOf PeerRxDesc 10 (labelsOf Sample.one_peer "100.64.0.1" Sample.p1 "100.64.0.2"))
       = labelsOf Sample.one_peer self_ip peer peer_ip
    /\ prometheus.valType
         (metricOf PeerRxDesc 10 (labelsOf Sample.one_peer "100.64.0.1" Sample.p1 "100.64.0.2"))
       = prometheus.CounterValue
    /\ (prometheus.desc
          (metricOf PeerRxDesc 10 (labelsOf Sample.one_peer "100.64.0.1" Sample.p1 "100.64.0.2"))
        = PeerRxDesc
        /\ prometheus.val
             (metricOf PeerRxDesc 10 (labelsOf Sample.one_peer "100.64.0.1" Sample.p1 "100.64.0.2"))
           = GoInt.float64 (Peer.RxBytes peer)
        /\ (Z.abs (Peer.RxBytes peer) <= 2 ^ 53 ->
            float64_is
              (prometheus.val
                 (metricOf PeerRxDesc 10
                    (labelsOf Sample.one_peer "100.64.0.1" Sample.p1 "100.64.0.2")))
              (Peer.RxBytes peer))
        \/ prometheus.desc
             (metricOf PeerRxDesc 10 (labelsOf Sample.one_peer "100.64.0.1" Sample.p1 "100.64.0.2"))
           = PeerTxDesc
           /\ prometheus.val
                (metricOf PeerRxDesc 10
                   (labelsOf Sample.one_peer "100.64.0.1" Sample.p1 "100.64.0.2"))
              = GoInt.float64 (Peer.TxBytes peer)
           /\ (Z.abs (Peer.TxBytes peer) <= 2 ^ 53 ->
               float64_is
                 (prometheus.val
                    (metricOf PeerRxDesc 10
                       (labelsOf Sample.one_peer "100.64.0.1" Sample.p1 "100.64.0.2")))
                 (Peer.TxBytes peer))).
Proof.
  eapply (Collect_value_is_float64_of_count Sample.json_Unmarshal
            (Sample.prints "one_peer.json") Sample.one_peer
            (map_to_list (Peer Sample.one_peer))).
  - reflexivity.
  - unfold visits. reflexivity.
  - vm_compute. reflexivity.
  - apply list_elem_of_here.
Defined.

(** A run that exits with status 0 and writes a warning to its diagnostic
    stream is no error: the fetch returns the decoded document. *)
Lemma TailscaleGetStatus_ignores_stderr :
  exec.State Sample.warns = exec.Exited 0
  /\ exec.Stderr Sample.warns <> ""%string
  /\ TailscaleGetStatus Sample.json_Unmarshal Sample.warns = inr Sample.one_peer.
Proof. split; [reflexivity|]. split; [discriminate|reflexivity]. Qed.

Lemma TailscaleGetStatus_command_failure_witness :
  TailscaleGetStatus Sample.json_Unmarshal Sample.refused
  = inl (ErrNodesList "exit status 1" "failed to connect to local tailscaled")
  /\ Error (ErrNodesList "exit status 1" "failed to connect to local tailscaled")
     = ("error on headscale nodes list: exit status 1. "
        +:+ "stderr: failed to connect to local tailscaled")%string.
Proof.
  destruct (TailscaleGetStatus_command_failure Sample.json_Unmarshal Sample.refused)
    as (Hfail & _ & _).
  apply (Hfail "exit status 1"%string). reflexivity.
Defined.

(** After 19 failures and a success that reports the bound address the
    counter is 19, not 0. *)
Lemma watchdog_counter_not_reset :
  Forall (fun cmd => fails Sample.json_Unmarshal cmd = true) (replicate 19 Sample.refused)
  /\ getListenAddr Sample.json_Unmarshal (Sample.prints "one_peer.json")
     = inr "100.64.0.1"%string
  /\ counter_of
       (watchdog Sample.json_Unmarshal "100.64.0.1" 0
          (replicate 19 Sample.refused ++ [Sample.prints "one_peer.json"]))
     = Some 19
  /\ counter_of
       (watchdog Sample.json_Unmarshal "100.64.0.1" 0
          (replicate 19 Sample.refused ++ [Sample.prints "one_peer.json"]))
     <> Some 0.
Proof.
  split; [repeat constructor|]. split; [reflexivity|].
  split; [vm_compute; reflexivity|vm_compute; discriminate].
Qed.

Lemma watchdog_success_keeps_counter_witness :
  (forall errors,
     turn Sample.json_Unmarshal "100.64.0.1" errors (Sample.prints "one_peer.json")
     = Loop errors)
  /\ watchdog Sample.json_Unmarshal "100.64.0.1" 0
       (replicate 19 Sample.refused ++ [Sample.prints "one_peer.json"])
     = Loop 19.
Proof.
  destruct (watchdog_success_keeps_counter Sample.json_Unmarshal "100.64.0.1"%string
              (Sample.prints "one_peer.json") eq_refl) as [Hturn Hruns].
  split; [exact Hturn|].
  apply (Hruns (replicate 19 Sample.refused)); [reflexivity|repeat constructor].
Defined.

(** Twenty failures in a row from a counter of 0 do not end the process. *)
Lemma watchdog_survives_20_failures :
  Forall (fun cmd => fails Sample.json_Unmarshal cmd = true) (replicate 20 Sample.refused)
  /\ watchdog Sample.json_Unmarshal "100.64.0.1" 0 (replicate 20 Sample.refused) = Loop 20
  /\ state_of (watchdog Sample.json_Unmarshal "100.64.0.1" 0 (replicate 20 Sample.refused))
     <> Terminated.
Proof.
  split; [repeat constructor|].
  split; [vm_compute; reflexivity|vm_compute; discriminate].
Qed.

Lemma watchdog_gives_up_at_21_witness :
  watchdog Sample.json_Unmarshal "100.64.0.1" 0 (replicate 20 Sample.refused) = Loop 20
  /\ exists err,
       watchdog Sample.json_Unmarshal "100.64.0.1" 0 (replicate 21 Sample.refused)
       = Dead (ExitPanicErrorf ("on update ip: " +:+ Error err))
       /\ state_of (watchdog Sample.json_Unmarshal "100.64.0.1" 0 (replicate 21 Sample.refused))
          = Terminated.
Proof.
  split.
  - apply (watchdog_gives_up_at_21 Sample.json_Unmarshal "100.64.0.1"%string
             (replicate 20 Sample.refused)); [repeat constructor|simpl; lia].
  - apply (watchdog_gives_up_at_21 Sample.json_Unmarshal "100.64.0.1"%string
             (replicate 21 Sample.refused)); [repeat constructor|simpl; lia].
Defined.

Lemma watchdog_identity_drift_witness :
  main Sample.json_Unmarshal (Sample.prints "one_peer.json")
    [Sample.prints "two_peers.json"; Sample.prints "one_peer.json"]
  = Loop 0
  /\ main Sample.json_Unmarshal (Sample.prints "one_peer.json")
       ([Sample.prints "two_peers.json"] ++ Sample.prints "moved.json"
          :: [Sample.prints "one_peer.json"])
     = Dead (ExitFatal "100.64.0.1" "100.64.0.9").
Proof.
  destruct (watchdog_identity_drift Sample.json_Unmarshal (Sample.prints "one_peer.json")
              "100.64.0.1"%string eq_refl) as (Hstay & Hdrift & _).
  split.
  - apply Hstay. repeat constructor.
  - apply Hdrift; [repeat constructor|reflexivity|discriminate].
Defined.

(** The start-up address is still listed, in second place: the process
    ends all the same. *)
Lemma watchdog_compares_first_address_witness :
  "100.64.0.1"%string ∈ ["100.64.0.1"%string]
  /\ getListenAddr Sample.json_Unmarshal (Sample.prints "moved.json")
     = inr "100.64.0.9"%string
  /\ turn Sample.json_Unmarshal "100.64.0.1" 3 (Sample.prints "moved.json")
     = Dead (ExitFatal "100.64.0.1" "100.64.0.9")
  /\ turn Sample.json_Unmarshal "100.64.0.1" 3 (Sample.prints "one_peer.json")
     = Loop 3.
Proof.
  split; [apply list_elem_of_here|].
  destruct (watchdog_compares_first_address Sample.json_Unmarshal "100.64.0.1"%string 3
              (Sample.prints "moved.json") Sample.moved
              "100.64.0.9"%string ["100.64.0.1"%string] eq_refl eq_refl)
    as (Haddr & Hdiffers & _).
  destruct (watchdog_compares_first_address Sample.json_Unmarshal "100.64.0.1"%string 3
              (Sample.prints "one_peer.json") Sample.one_peer
              "100.64.0.1"%string ["fd7a::1"%string] eq_refl eq_refl)
    as (_ & _ & Hsame).
  split; [exact Haddr|]. split; [apply Hdiffers; discriminate|apply Hsame; reflexivity].
Defined.


(** * Further properties of the program *)

(** X1. A scrape returns without a panic exactly when the fetch yields a
    status whose self node has an address and every visited peer has one. *)
Theorem Collect_returns_iff json cmd order :
  (exists sent, Collect json cmd order = (sent, Returned tt))
  <-> (exists status,
         TailscaleGetStatus json cmd = inr status
         /\ Self.TailscaleIPs (Self status) <> []
         /\ Forall (fun kp : string * Peer.t => Peer.TailscaleIPs kp.2 <> []) order).
Proof.
  split.
  - intros [sent Hsent]. pose proof (Collect_cases json cmd order) as Hcase.
    rewrite Hsent in Hcase. inversion Hcase as [| |status self_ip ips Hfetch Hips Hall|].
    exists status. split; [exact Hfetch|]. split; [now rewrite Hips|exact Hall].
  - intros (status & Hfetch & Hself & Hall).
    destruct (Self.TailscaleIPs (Self status)) as [|self_ip ips] eqn:Hips; [congruence|].
    eexists. rewrite (Collect_fetched _ _ _ _ Hfetch), (collectStatus_unfold _ _ _ _ Hips).
    now apply range_ok.
Qed.

(** X2. Whatever happens in a scrape, what it has sent is well formed:
    an even number of metrics, two for each of some first peers of the
    visiting order, every one a counter with as many label values as its
    descriptor has labels, namely eight. *)
Theorem Collect_sent_well_formed json cmd order :
  (exists n, (n <= length order)%nat
             /\ length (Collect json cmd order).1 = (2 * n)%nat)
  /\ Forall (fun m =>
        prometheus.valType m = prometheus.CounterValue
        /\ length (prometheus.labelValues m)
           = length (prometheus.variableLabels (prometheus.desc m))
        /\ length (prometheus.labelValues m) = 8%nat)
       (Collect json cmd order).1.
Proof.
  assert (Hshape : forall status self_ip l,
             Forall (fun m =>
               prometheus.valType m = prometheus.CounterValue
               /\ length (prometheus.labelValues m)
                  = length (prometheus.variableLabels (prometheus.desc m))
               /\ length (prometheus.labelValues m) = 8%nat)
               (flat_map (fun kp : string * Peer.t => metricsOf status self_ip kp.2) l)).
  { intros status self_ip l. apply Forall_forall. intros m Hm.
    apply list_elem_of_In, in_flat_map in Hm as ([k peer] & _ & Hm). simpl in Hm.
    unfold metricsOf in Hm. destruct (Peer.TailscaleIPs peer); [inversion Hm|].
    destruct Hm as [<-|[<-|[]]]; repeat split. }
  destruct (Collect_cases json cmd order)
    as [err _|status _ _|status self_ip ips _ _ Hall
        |status self_ip ips before kp after _ _ Horder Hbefore _]; cbn [fst].
  - split; [exists 0%nat; split; [lia|reflexivity]|constructor].
  - split; [exists 0%nat; split; [lia|reflexivity]|constructor].
  - split; [|apply Hshape]. exists (length order). split; [lia|].
    now apply flat_map_metricsOf_length.
  - split; [|apply Hshape]. exists (length before). split.
    + rewrite Horder, length_app. lia.
    + now apply flat_map_metricsOf_length.
Qed.

(** X3. A scrape never panics in [MustNewConstMetric]: a panic is either
    the error of the failed fetch, with nothing sent, or the run-time error
    of taking element 0 of an empty address list. *)
Theorem Collect_panic_causes json cmd order sent p :
  Collect json cmd order = (sent, Panicked p) ->
  (exists err, p = PanicError err /\ TailscaleGetStatus json cmd = inl err /\ sent = [])
  \/ (p = PanicIndex 0 0
      /\ exists status,
           TailscaleGetStatus json cmd = inr status
           /\ (Self.TailscaleIPs (Self status) = [] /\ sent = []
               \/ exists kp, kp ∈ order /\ Peer.TailscaleIPs kp.2 = [])).
Proof.
  intros Hcollect. pose proof (Collect_cases json cmd order) as Hcase.
  rewrite Hcollect in Hcase.
  inversion Hcase as [err Hfetch|status Hfetch Hips| |
                      status self_ip ips before kp after Hfetch Hips Horder Hbefore Hkp].
  - left. exists err. now repeat split.
  - right. split; [reflexivity|]. exists status. split; [exact Hfetch|]. now left.
  - right. split; [reflexivity|]. exists status. split; [exact Hfetch|]. right.
    exists kp. split; [|exact Hkp]. rewrite Horder. apply elem_of_app. right. apply list_elem_of_here.
Qed.

(** X4. A scrape that returns has sent, for every peer of the status, the
    received-bytes metric and the transmitted-bytes metric with that peer's
    labels and counts. *)
Theorem Collect_covers_every_peer json cmd status order sent k peer :
  TailscaleGetStatus json cmd = inr status ->
  visits (Peer status) order ->
  Collect json cmd order = (sent, Returned tt) ->
  Peer status !! k = Some peer ->
  exists self_ip peer_ip,
    Self.TailscaleIPs (Self status) !! 0%nat = Some self_ip
    /\ Peer.TailscaleIPs peer !! 0%nat = Some peer_ip
    /\ metricOf PeerRxDesc (Peer.RxBytes peer) (labelsOf status self_ip peer peer_ip) ∈ sent
    /\ metricOf PeerTxDesc (Peer.TxBytes peer) (labelsOf status self_ip peer peer_ip) ∈ sent.
Proof.
  intros Hfetch Hvisits Hcollect Hpeer.
  pose proof (Collect_cases json cmd order) as Hcase. rewrite Hcollect in Hcase.
  inversion Hcase as [| |status' self_ip ips Hfetch' Hips Hall|].
  assert (status' = status) as -> by congruence.
  assert (Hin : (k, peer) ∈ order).
  { unfold visits in Hvisits. rewrite Hvisits. now apply elem_of_map_to_list. }
  pose proof (proj1 (Forall_forall _ _) Hall _ Hin) as Hk. unfold addressed in Hk. simpl in Hk.
  destruct (Peer.TailscaleIPs peer) as [|peer_ip ips'] eqn:E; [congruence|].
  exists self_ip, peer_ip. rewrite Hips. split; [reflexivity|]. split; [reflexivity|].
  assert (Hsub : forall m, m ∈ metricsOf status self_ip peer ->
                           m ∈ flat_map (fun kp : string * Peer.t =>
                                           metricsOf status self_ip kp.2) order).
  { intros m Hm. apply list_elem_of_In, in_flat_map. exists (k, peer).
    split; apply list_elem_of_In; assumption. }
  split; apply Hsub; unfold metricsOf; rewrite E.
  - apply list_elem_of_here.
  - apply list_elem_of_further, list_elem_of_here.
Qed.

(** X5. The order in which [range] visits the peers decides neither
    whether a scrape returns nor which metrics a returning scrape sends:
    two visiting orders of the same peers give the same metrics, up to
    their order. *)
Theorem Collect_order_irrelevant json cmd order1 order2 :
  order1 ≡ₚ order2 ->
  ((Collect json cmd order1).2 = Returned tt <-> (Collect json cmd order2).2 = Returned tt)
  /\ ((Collect json cmd order1).2 = Returned tt ->
      (Collect json cmd order1).1 ≡ₚ (Collect json cmd order2).1).
Proof.
  intros Hperm.
  assert (Hone : forall o1 o2, o1 ≡ₚ o2 ->
            (Collect json cmd o1).2 = Returned tt ->
            (Collect json cmd o2).2 = Returned tt
            /\ (Collect json cmd o1).1 ≡ₚ (Collect json cmd o2).1).
  { intros o1 o2 Hp Hret.
    destruct (Collect_cases json cmd o1)
      as [| |status self_ip ips Hfetch Hips Hall|]; try discriminate Hret.
    assert (Hall2 : Forall (fun kp : string * Peer.t => Peer.TailscaleIPs kp.2 <> []) o2)
      by (now rewrite <- Hp).
    rewrite (Collect_fetched _ _ _ _ Hfetch), (collectStatus_unfold _ _ _ _ Hips),
      (range_ok _ _ _ Hall2).
    split; [reflexivity|]. cbn [fst]. now apply Permutation_flat_map. }
  split; [split|].
  - intros H. now apply (Hone order1 order2).
  - intros H. now apply (Hone order2 order1).
  - intros H. now apply (Hone order1 order2).
Qed.

(** ** Labels *)

Lemma join_cons sep piece pieces :
  pieces <> [] -> join sep (piece :: pieces) = piece +:+ String sep (join sep pieces).
Proof. destruct pieces; [congruence|reflexivity]. Qed.

(** X6. [strings.Split] loses nothing and leaves no separator behind:
    the pieces joined with the separator are the string again, no piece
    contains the separator, and there is one piece more than there are
    separators in the string. *)
Theorem Split_join s sep :
  join sep (strings.Split s sep) = s
  /\ Forall (fun piece => ~ occurs sep piece) (strings.Split s sep)
  /\ length (strings.Split s sep) = S (count sep s).
Proof.
  induction s as [|c rest (IHjoin & IHpieces & IHlen)].
  - repeat split. repeat constructor. simpl. tauto.
  - pose proof (Split_nonempty rest sep) as Hne. cbn [strings.Split count].
    destruct (Ascii.eqb_spec c sep) as [->|Hc].
    + split; [|split].
      * rewrite (join_cons _ _ _ Hne), IHjoin. reflexivity.
      * constructor; [simpl; tauto|exact IHpieces].
      * cbn [length]. now rewrite IHlen.
    + destruct (strings.Split rest sep) as [|piece pieces]; [congruence|].
      split; [|split].
      * rewrite <- IHjoin. destruct pieces; reflexivity.
      * apply Forall_cons in IHpieces as [Hpiece Hpieces].
        constructor; [|exact Hpieces]. simpl. tauto.
      * exact IHlen.
Qed.

Lemma truncate_at_no_sep sep d : ~ occurs sep (truncate_at sep d).
Proof.
  induction d as [|c d IH]; simpl; [tauto|].
  destruct (Ascii.eqb_spec c sep) as [->|Hc]; simpl; tauto.
Qed.

Lemma truncate_at_is_prefix sep d : String.prefix (truncate_at sep d) d = true.
Proof.
  induction d as [|c d IH]; simpl; [reflexivity|].
  destruct (Ascii.eqb c sep); simpl; [reflexivity|].
  destruct (ascii_dec c c); [exact IH|congruence].
Qed.

(** X7. In every metric a scrape sends, the given_name label and the
    peer_given_name label contain no dot, and they are a prefix of the DNS
    name of the self node and of a visited peer. *)
Theorem given_name_labels_have_no_dot json cmd order m :
  m ∈ (Collect json cmd order).1 ->
  exists status k peer given_name peer_given_name,
    TailscaleGetStatus json cmd = inr status
    /\ (k, peer) ∈ order
    /\ prometheus.labelValues m !! 2%nat = Some given_name
    /\ prometheus.labelValues m !! 5%nat = Some peer_given_name
    /\ ~ occurs "." given_name
    /\ ~ occurs "." peer_given_name
    /\ String.prefix given_name (Self.DNSName (Self status)) = true
    /\ String.prefix peer_given_name (Peer.DNSName peer) = true.
Proof.
  intros Hm.
  destruct (TailscaleGetStatus json cmd) as [err|status] eqn:Hfetch.
  - unfold Collect in Hm. rewrite Hfetch in Hm. inversion Hm.
  - destruct (Collect json cmd order) as [sent out] eqn:Hcollect. cbn [fst] in Hm.
    destruct (Collect_sent _ _ _ _ _ _ _ Hfetch Hcollect Hm)
      as (self_ip & ips & k & peer & _ & Hin & Hof).
    apply metricsOf_shape in Hof as (_ & (peer_ip & ips' & _ & Hlabels) & _).
    exists status, k, peer, (truncate_at "." (Self.DNSName (Self status))),
      (truncate_at "." (Peer.DNSName peer)).
    rewrite Hlabels. split; [reflexivity|]. split; [exact Hin|].
    split; [reflexivity|]. split; [reflexivity|].
    split; [apply truncate_at_no_sep|]. split; [apply truncate_at_no_sep|].
    split; apply truncate_at_is_prefix.
Qed.

(** X8. [strconv.Itoa] tells integers apart: two user ids with the same
    peer_user_id label are the same id. *)
Theorem Itoa_injective a b : strconv.Itoa a = strconv.Itoa b -> a = b.
Proof.
  unfold strconv.Itoa. intros H.
  assert (Hnil : forall z, Z.to_int z <> Decimal.Pos Decimal.Nil
                           /\ Z.to_int z <> Decimal.Neg Decimal.Nil).
  { intros [|p|p]; simpl; split; try discriminate;
      intros [=Hp]; exact (Unsigned.to_uint_nonnil p Hp). }
  apply (f_equal NilZero.int_of_string) in H.
  rewrite !NilZero.isi in H by apply Hnil.
  injection H as H. apply (f_equal Z.of_int) in H. now rewrite !DecimalZ.of_to in H.
Qed.

(** X9. The key of a peer in the status and its node id are no part of
    its labels: two peers with the same host name, the same first piece of
    the DNS name, the same first address and the same user id get the same
    label values, and the loop body ends the same way for both. *)
Theorem collectPeer_labels_ignore_identity templateLabels p q :
  length templateLabels = 8%nat ->
  Peer.HostName p = Peer.HostName q ->
  strings.Split (Peer.DNSName p) "." !! 0%nat = strings.Split (Peer.DNSName q) "." !! 0%nat ->
  Peer.TailscaleIPs p !! 0%nat = Peer.TailscaleIPs q !! 0%nat ->
  Peer.UserID p = Peer.UserID q ->
  prometheus.labelValues <$> (collectPeer templateLabels p).1
  = prometheus.labelValues <$> (collectPeer templateLabels q).1
  /\ (collectPeer templateLabels p).2 = (collectPeer templateLabels q).2.
Proof.
  intros Hlen Hhost Hdns Hip Huser.
  do 8 (destruct templateLabels as [|? templateLabels]; [discriminate Hlen|]).
  destruct templateLabels; [|discriminate Hlen].
  rewrite !Split_head in Hdns. injection Hdns as Hdns.
  destruct (Peer.TailscaleIPs p) as [|ip_p ips_p] eqn:Ep;
    destruct (Peer.TailscaleIPs q) as [|ip_q ips_q] eqn:Eq; try discriminate Hip.
  - rewrite !collectPeer_no_address by assumption. split; reflexivity.
  - injection Hip as ->.
    rewrite (collectPeer_ok _ _ _ _ _ _ _ _ p ip_q ips_p Ep),
      (collectPeer_ok _ _ _ _ _ _ _ _ q ip_q ips_q Eq).
    cbn. rewrite Hhost, Hdns, Huser. split; reflexivity.
Qed.

(** X10. [Describe] and [Collect] agree: the descriptor of every metric
    a scrape sends is one of the two distinct descriptors that [Describe]
    announces, and both have the eight labels. *)
Theorem Describe_covers_Collect json cmd order :
  Forall (fun m => prometheus.desc m ∈ Describe) (Collect json cmd order).1
  /\ NoDup Describe
  /\ Forall (fun d => prometheus.variableLabels d = dynLabels
                      /\ length (prometheus.variableLabels d) = 8%nat) Describe.
Proof.
  split; [|split].
  - apply Forall_forall. intros m Hm.
    destruct (TailscaleGetStatus json cmd) as [err|status] eqn:Hfetch.
    + unfold Collect in Hm. rewrite Hfetch in Hm. inversion Hm.
    + destruct (Collect json cmd order) as [sent out] eqn:Hcollect. cbn [fst] in Hm.
      destruct (Collect_sent _ _ _ _ _ _ _ Hfetch Hcollect Hm)
        as (self_ip & ips & k & peer & _ & _ & Hof).
      apply metricsOf_shape in Hof as (_ & _ & [[-> _]|[-> _]]); unfold Describe.
      * apply list_elem_of_further, list_elem_of_here.
      * apply list_elem_of_here.
  - unfold Describe. apply NoDup_cons. split; [|apply NoDup_singleton].
    intros H. apply list_elem_of_singleton in H. discriminate H.
  - unfold Describe. repeat constructor.
Qed.

(** ** The fetch *)

Lemma Run_None_iff cmd : exec.Run cmd = None <-> exec.State cmd = exec.Exited 0.
Proof.
  unfold exec.Run. destruct (exec.State cmd) as [[|code|code]|why]; split;
    (reflexivity || discriminate).
Qed.

(** X11. The fetch succeeds exactly when the command exits with status
    zero and the decoder accepts its standard output, and then it returns
    what the decoder returns. *)
Theorem TailscaleGetStatus_succeeds_iff json cmd status :
  TailscaleGetStatus json cmd = inr status
  <-> exec.State cmd = exec.Exited 0 /\ json (exec.Stdout cmd) = inr status.
Proof.
  unfold TailscaleGetStatus. split.
  - destruct (exec.Run cmd) as [err|] eqn:Hrun; [discriminate|].
    apply Run_None_iff in Hrun. intros H. split; [exact Hrun|].
    destruct (json (exec.Stdout cmd)); [discriminate|]. now injection H as ->.
  - intros [Hstate Hjson]. apply Run_None_iff in Hstate. now rewrite Hstate, Hjson.
Qed.

(** X12. A failed fetch is of one of two kinds, and what a kind carries
    is fixed: after a failed run the error carries the run's error and the
    whole diagnostic stream, and the standard output is not decoded; after
    a run that exited with status zero it carries the decoder's error and
    the whole standard output.  The fetch itself never reports missing
    addresses. *)
Theorem TailscaleGetStatus_error_kinds json cmd err :
  TailscaleGetStatus json cmd = inl err ->
  (exists run_err,
     exec.Run cmd = Some run_err
     /\ err = ErrNodesList run_err (exec.Stderr cmd)
     /\ forall json' stdout',
          TailscaleGetStatus json'
            {| exec.State := exec.State cmd; exec.Stdout := stdout';
               exec.Stderr := exec.Stderr cmd |} = inl err)
  \/ (exists json_err,
        exec.State cmd = exec.Exited 0
        /\ json (exec.Stdout cmd) = inl json_err
        /\ err = ErrUnmarshal json_err (exec.Stdout cmd)
        /\ Error err
           = "error on unmarshal: " +:+ json_err +:+ ". stdout: " +:+ exec.Stdout cmd).
Proof.
  unfold TailscaleGetStatus.
  destruct (exec.Run cmd) as [run_err|] eqn:Hrun.
  - intros [= <-]. left. exists run_err. split; [reflexivity|]. split; [reflexivity|].
    intros json' stdout'. unfold TailscaleGetStatus, exec.Run in *. cbn.
    now rewrite Hrun.
  - apply Run_None_iff in Hrun.
    destruct (json (exec.Stdout cmd)) as [json_err|status] eqn:Hjson; [|discriminate].
    intros [= <-]. right. exists json_err. repeat split; assumption.
Qed.

(** X13. A status that decodes but lists no address for the self node is
    a failed read of the listen address, "no ips found": at start-up it
    ends the process before the watchdog runs, with that error as the
    panic value; in the watchdog it is counted like a failed fetch, the
    panic at the counter's limit being [fmt.Errorf] of "on update ip: no
    ips found", and is never taken for a changed address. *)
Theorem getListenAddr_no_address json cmd status :
  TailscaleGetStatus json cmd = inr status ->
  Self.TailscaleIPs (Self status) = [] ->
  getListenAddr json cmd = inl ErrNoIps
  /\ Error ErrNoIps = "no ips found"%string
  /\ (forall runs, main json cmd runs = Dead (ExitPanic ErrNoIps))
  /\ (forall ip errors, 0 <= errors < 20 -> turn json ip errors cmd = Loop (errors + 1))
  /\ (forall ip,
        turn json ip 20 cmd = Dead (ExitPanicErrorf "on update ip: no ips found")).
Proof.
  intros Hfetch Hips.
  pose proof (getListenAddr_no_ips json cmd status Hfetch Hips) as Haddr.
  split; [exact Haddr|]. split; [reflexivity|]. split; [|split].
  - intros runs. unfold main. now rewrite Haddr.
  - intros ip errors Herrors. now apply (turn_failure_counted json ip errors cmd ErrNoIps).
  - intros ip. now apply (turn_failure_fatal json ip cmd ErrNoIps).
Qed.

(** X14. The listen address is read from the first place of the self
    node's address list and from nowhere else: a read succeeds exactly
    when the fetch does and the list is not empty, and yields its head. *)
Theorem getListenAddr_succeeds_iff json cmd ip :
  getListenAddr json cmd = inr ip
  <-> exists status,
        TailscaleGetStatus json cmd = inr status
        /\ Self.TailscaleIPs (Self status) !! 0%nat = Some ip.
Proof.
  unfold getListenAddr. split.
  - destruct (TailscaleGetStatus json cmd) as [err|status]; [discriminate|].
    destruct (Self.TailscaleIPs (Self status)) as [|ip0 ips] eqn:E; [discriminate|].
    intros [= <-]. exists status. rewrite E. split; reflexivity.
  - intros (status & -> & Hip).
    destruct (Self.TailscaleIPs (Self status)) as [|ip0 ips]; [discriminate Hip|].
    now injection Hip as ->.
Qed.

(** ** The watchdog over a whole run *)

Section Watchdog.

Variable json : string -> string + TailscaleStatus.
Variable ip : string.

Lemma turn_cases errors cmd :
  0 <= errors <= 20 ->
  (exists err, getListenAddr json cmd = inl err /\ fails json cmd = true
               /\ (errors < 20 /\ turn json ip errors cmd = Loop (errors + 1)
                   \/ errors = 20
                      /\ turn json ip errors cmd
                         = Dead (ExitPanicErrorf ("on update ip: " +:+ Error err))))
  \/ (getListenAddr json cmd = inr ip /\ fails json cmd = false
      /\ turn json ip errors cmd = Loop errors)
  \/ (exists newIp, getListenAddr json cmd = inr newIp /\ fails json cmd = false
                    /\ newIp <> ip
                    /\ turn json ip errors cmd = Dead (ExitFatal ip newIp)).
Proof.
  intros Herrors. unfold fails.
  destruct (getListenAddr json cmd) as [err|newIp] eqn:E.
  - left. exists err. split; [reflexivity|]. split; [reflexivity|].
    destruct (Z.eq_dec errors 20) as [->|Hne].
    + right. split; [reflexivity|]. now apply turn_failure_fatal.
    + left. split; [lia|]. apply (turn_failure_counted json ip errors cmd err E). lia.
  - right. destruct (String.eqb_spec newIp ip) as [->|Hne].
    + left. split; [reflexivity|]. split; [reflexivity|]. now apply turn_same.
    + right. exists newIp. split; [reflexivity|]. split; [reflexivity|].
      split; [exact Hne|]. now apply turn_other.
Qed.

Lemma watchdog_Loop_inv runs : forall errors errors',
  0 <= errors <= 20 ->
  watchdog json ip errors runs = Loop errors' ->
  Forall (fun cmd => fails json cmd = false -> getListenAddr json cmd = inr ip) runs
  /\ errors' = errors + failures json runs
  /\ errors' <= 20.
Proof.
  induction runs as [|cmd runs IH]; intros errors errors' Herrors Hloop.
  - simpl in Hloop. injection Hloop as <-. split; [constructor|].
    unfold failures. simpl. lia.
  - cbn [watchdog] in Hloop. rewrite failures_cons.
    destruct (turn_cases errors cmd Herrors)
      as [(err & Haddr & Hfails & [[Hlt Hturn]|[-> Hturn]])
         |[(Haddr & Hfails & Hturn)|(newIp & Haddr & Hfails & Hne & Hturn)]];
      rewrite Hturn in Hloop; try discriminate Hloop; rewrite Hfails.
    + destruct (IH (errors + 1) errors' ltac:(lia) Hloop) as (Hall & -> & Hle).
      split; [constructor; [congruence|exact Hall]|]. lia.
    + destruct (IH _ _ Herrors Hloop) as (Hall & -> & Hle).
      split; [constructor; [now intros _|exact Hall]|]. lia.
Qed.

Lemma watchdog_Dead_inv runs : forall errors how,
  0 <= errors <= 20 ->
  watchdog json ip errors runs = Dead how ->
  match how with
  | ExitFatal was now =>
      was = ip /\ now <> ip
      /\ exists cmd, cmd ∈ runs /\ getListenAddr json cmd = inr now
  | ExitPanicErrorf format =>
      21 <= errors + failures json runs
      /\ exists cmd err,
           cmd ∈ runs /\ getListenAddr json cmd = inl err
           /\ format = "on update ip: " +:+ Error err
  | ExitPanic _ => False
  end.
Proof.
  induction runs as [|cmd runs IH]; intros errors how Herrors Hdead.
  - discriminate Hdead.
  - cbn [watchdog] in Hdead. rewrite failures_cons.
    pose proof (failures_nonneg json runs) as Hnn.
    assert (Hlift : forall errors', 0 <= errors' <= 20 ->
              errors' + failures json runs
              <= errors + ((if fails json cmd then 1 else 0) + failures json runs) ->
              watchdog json ip errors' runs = Dead how ->
              match how with
              | ExitFatal was now =>
                  was = ip /\ now <> ip
                  /\ exists c, c ∈ cmd :: runs /\ getListenAddr json c = inr now
              | ExitPanicErrorf format =>
                  21 <= errors + ((if fails json cmd then 1 else 0) + failures json runs)
                  /\ exists c err,
                       c ∈ cmd :: runs /\ getListenAddr json c = inl err
                       /\ format = "on update ip: " +:+ Error err
              | ExitPanic _ => False
              end).
    { intros errors' Herrors' Hle Hrest. specialize (IH errors' how Herrors' Hrest).
      destruct how as [err|format|was now].
      - exact IH.
      - destruct IH as (H21 & c & err & Hc & Haddr & Hformat). split; [lia|].
        exists c, err. split; [now apply list_elem_of_further|]. split; assumption.
      - destruct IH as (Hwas & Hnow & c & Hc & Haddr). split; [exact Hwas|].
        split; [exact Hnow|]. exists c. split; [now apply list_elem_of_further|exact Haddr]. }
    destruct (turn_cases errors cmd Herrors)
      as [(err & Haddr & Hfails & [[Hlt Hturn]|[-> Hturn]])
         |[(Haddr & Hfails & Hturn)|(newIp & Haddr & Hfails & Hne & Hturn)]];
      rewrite Hturn in Hdead; rewrite Hfails in *.
    + apply (Hlift (errors + 1)); [lia|lia|exact Hdead].
    + injection Hdead as <-. split; [lia|].
      exists cmd, err. split; [apply list_elem_of_here|]. split; [exact Haddr|reflexivity].
    + apply (Hlift errors); [lia|lia|exact Hdead].
    + injection Hdead as <-. split; [reflexivity|]. split; [exact Hne|].
      exists cmd. split; [apply list_elem_of_here|exact Haddr].
Qed.

End Watchdog.

(** X15. The watchdog is still looping after a sequence of turns exactly
    when every read that succeeded gave the start-up address and no more
    than 20 reads failed, in a row or not; its counter is then the number
    of all the failures so far, so it never goes down and never passes 20. *)
Theorem watchdog_survives_iff json ip runs errors :
  watchdog json ip 0 runs = Loop errors
  <-> Forall (fun cmd => fails json cmd = false -> getListenAddr json cmd = inr ip) runs
      /\ failures json runs <= 20
      /\ errors = failures json runs.
Proof.
  split.
  - intros Hloop.
    destruct (watchdog_Loop_inv json ip runs 0 errors ltac:(lia) Hloop) as (Hall & -> & Hle).
    split; [exact Hall|]. split; [lia|reflexivity].
  - intros (Hall & Hle & ->).
    rewrite (watchdog_counts json ip runs 0 Hall); [reflexivity|lia|lia].
Qed.

(** X16. How the process ends tells why.  An exit by [log.Fatalf] names
    the start-up address and a different address that some turn's read
    gave.  The panic of [main] carries the error of the failed start-up
    read itself.  The panic of the goroutine carries no error of a read
    but what [fmt.Errorf] makes of the format "on update ip: " followed by
    the text of the error of a turn's failed read; the start-up read has
    succeeded then, and at least 21 reads have failed. *)
Theorem watchdog_exit_causes json boot runs how :
  main json boot runs = Dead how ->
  match how with
  | ExitFatal was now =>
      getListenAddr json boot = inr was /\ now <> was
      /\ exists cmd, cmd ∈ runs /\ getListenAddr json cmd = inr now
  | ExitPanic err => getListenAddr json boot = inl err
  | ExitPanicErrorf format =>
      (exists ip, getListenAddr json boot = inr ip)
      /\ 21 <= failures json runs
      /\ exists cmd err,
           cmd ∈ runs /\ getListenAddr json cmd = inl err
           /\ format = "on update ip: " +:+ Error err
  end.
Proof.
  unfold main. destruct (getListenAddr json boot) as [err|ip] eqn:Hboot.
  - intros [= <-]. reflexivity.
  - intros Hdead.
    pose proof (watchdog_Dead_inv json ip runs 0 how ltac:(lia) Hdead) as Hinv.
    destruct how as [err|format|was now].
    + destruct Hinv.
    + destruct Hinv as (H21 & Hcmd). split; [now exists ip|]. split; assumption.
    + destruct Hinv as (-> & Hnow & Hcmd). split; [reflexivity|]. split; assumption.
Qed.

(** X17. The failures need not come in a row: when every read that
    succeeds gives the start-up address, the process lives as long as no
    more than 20 reads have failed and is ended by the panic once 21 have,
    whatever successes lie between them. *)
Theorem watchdog_counts_all_failures json ip runs :
  Forall (fun cmd => fails json cmd = false -> getListenAddr json cmd = inr ip) runs ->
  (failures json runs <= 20 -> watchdog json ip 0 runs = Loop (failures json runs))
  /\ (21 <= failures json runs ->
      exists err,
        watchdog json ip 0 runs = Dead (ExitPanicErrorf ("on update ip: " +:+ Error err))).
Proof.
  intros Hall. split.
  - intros Hle. rewrite (watchdog_counts json ip runs 0 Hall); [reflexivity|lia|lia].
  - intros H21.
    destruct (watchdog json ip 0 runs) as [errors|[err|format|was now]] eqn:Hrun.
    + destruct (watchdog_Loop_inv json ip runs 0 errors ltac:(lia) Hrun) as (_ & -> & Hle). lia.
    + destruct (watchdog_Dead_inv json ip runs 0 _ ltac:(lia) Hrun).
    + destruct (watchdog_Dead_inv json ip runs 0 _ ltac:(lia) Hrun)
        as (_ & cmd & err & _ & _ & ->).
      now exists err.
    + destruct (watchdog_Dead_inv json ip runs 0 _ ltac:(lia) Hrun)
        as (_ & Hnow & cmd & Hcmd & Haddr).
      pose proof (proj1 (Forall_forall _ _) Hall cmd Hcmd) as Hok.
      unfold fails in Hok. rewrite Haddr in Hok. specialize (Hok eq_refl). congruence.
Qed.


(** * The further properties at the sample documents *)

Lemma Collect_panic_causes_witness :
  (exists err, PanicIndex 0 0 = PanicError err
               /\ TailscaleGetStatus Sample.json_Unmarshal
                    (Sample.prints "no_self_address.json") = inl err
               /\ @nil prometheus.Metric = [])
  \/ (PanicIndex 0 0 = PanicIndex 0 0
      /\ exists status,
           TailscaleGetStatus Sample.json_Unmarshal
             (Sample.prints "no_self_address.json") = inr status
           /\ (Self.TailscaleIPs (Self status) = [] /\ @nil prometheus.Metric = []
               \/ exists kp, kp ∈ map_to_list (Peer Sample.no_self_address)
                             /\ Peer.TailscaleIPs kp.2 = [])).
Proof.
  apply (Collect_panic_causes Sample.json_Unmarshal (Sample.prints "no_self_address.json")
           (map_to_list (Peer Sample.no_self_address)) [] (PanicIndex 0 0)).
  reflexivity.
Defined.

Lemma Collect_covers_every_peer_witness :
  exists self_ip peer_ip,
    Self.TailscaleIPs (Self Sample.one_peer) !! 0%nat = Some self_ip
    /\ Peer.TailscaleIPs Sample.p1 !! 0%nat = Some peer_ip
    /\ metricOf PeerRxDesc (Peer.RxBytes Sample.p1)
         (labelsOf Sample.one_peer self_ip Sample.p1 peer_ip)
       ∈ [ metricOf PeerRxDesc 10
             (labelsOf Sample.one_peer "100.64.0.1" Sample.p1 "100.64.0.2");
           metricOf PeerTxDesc 20
             (labelsOf Sample.one_peer "100.64.0.1" Sample.p1 "100.64.0.2") ]
    /\ metricOf PeerTxDesc (Peer.TxBytes Sample.p1)
         (labelsOf Sample.one_peer self_ip Sample.p1 peer_ip)
       ∈ [ metricOf PeerRxDesc 10
             (labelsOf Sample.one_peer "100.64.0.1" Sample.p1 "100.64.0.2");
           metricOf PeerTxDesc 20
             (labelsOf Sample.one_peer "100.64.0.1" Sample.p1 "100.64.0.2") ].
Proof.
  apply (Collect_covers_every_peer Sample.json_Unmarshal (Sample.prints "one_peer.json")
           Sample.one_peer (map_to_list (Peer Sample.one_peer)) _ "nodekey:01"%string).
  - reflexivity.
  - unfold visits. reflexivity.
  - vm_compute. reflexivity.
  - vm_compute. reflexivity.
Defined.

Lemma Collect_order_irrelevant_witness :
  ((Collect Sample.json_Unmarshal (Sample.prints "one_peer.json")
      [("nodekey:01"%string, Sample.p1); ("nodekey:03"%string, Sample.p3)]).2 = Returned tt
   <-> (Collect Sample.json_Unmarshal (Sample.prints "one_peer.json")
          [("nodekey:03"%string, Sample.p3); ("nodekey:01"%string, Sample.p1)]).2 = Returned tt)
  /\ ((Collect Sample.json_Unmarshal (Sample.prints "one_peer.json")
         [("nodekey:01"%string, Sample.p1); ("nodekey:03"%string, Sample.p3)]).2 = Returned tt ->
      (Collect Sample.json_Unmarshal (Sample.prints "one_peer.json")
         [("nodekey:01"%string, Sample.p1); ("nodekey:03"%string, Sample.p3)]).1
      ≡ₚ (Collect Sample.json_Unmarshal (Sample.prints "one_peer.json")
            [("nodekey:03"%string, Sample.p3); ("nodekey:01"%string, Sample.p1)]).1).
Proof.
  apply (Collect_order_irrelevant Sample.json_Unmarshal (Sample.prints "one_peer.json")).
  apply perm_swap.
Defined.

Lemma given_name_labels_have_no_dot_witness :
  exists status k peer given_name peer_given_name,
    TailscaleGetStatus Sample.json_Unmarshal (Sample.prints "one_peer.json") = inr status
    /\ (k, peer) ∈ map_to_list (Peer Sample.one_peer)
    /\ prometheus.labelValues
         (metricOf PeerRxDesc 10
            (labelsOf Sample.one_peer "100.64.0.1" Sample.p1 "100.64.0.2")) !! 2%nat
       = Some given_name
    /\ prometheus.labelValues
         (metricOf PeerRxDesc 10
            (labelsOf Sample.one_peer "100.64.0.1" Sample.p1 "100.64.0.2")) !! 5%nat
       = Some peer_given_name
    /\ ~ occurs "." given_name
    /\ ~ occurs "." peer_given_name
    /\ String.prefix given_name (Self.DNSName (Self status)) = true
    /\ String.prefix peer_given_name (Peer.DNSName peer) = true.
Proof.
  apply (given_name_labels_have_no_dot Sample.json_Unmarshal (Sample.prints "one_peer.json")).
  vm_compute. apply list_elem_of_here.
Defined.

Lemma Itoa_injective_witness : 5 = 2 + 3.
Proof. apply (Itoa_injective 5 (2 + 3)). reflexivity. Defined.

(** [p1] and its twin differ in node id, DNS name, further addresses and
    counts, and get the same label values. *)
Lemma collectPeer_labels_ignore_identity_witness :
  Sample.p1 <> Sample.p1_twin
  /\ prometheus.labelValues <$> (collectPeer (replicate 8 ""%string) Sample.p1).1
     = prometheus.labelValues <$> (collectPeer (replicate 8 ""%string) Sample.p1_twin).1
  /\ (collectPeer (replicate 8 ""%string) Sample.p1).2
     = (collectPeer (replicate 8 ""%string) Sample.p1_twin).2.
Proof.
  split; [discriminate|].
  apply (collectPeer_labels_ignore_identity (replicate 8 ""%string) Sample.p1 Sample.p1_twin);
    reflexivity.
Defined.

Lemma TailscaleGetStatus_error_kinds_witness :
  (exists run_err,
     exec.Run Sample.refused = Some run_err
     /\ ErrNodesList "exit status 1" "failed to connect to local tailscaled"
        = ErrNodesList run_err (exec.Stderr Sample.refused)
     /\ forall json' stdout',
          TailscaleGetStatus json'
            {| exec.State := exec.State Sample.refused; exec.Stdout := stdout';
               exec.Stderr := exec.Stderr Sample.refused |}
          = inl (ErrNodesList "exit status 1" "failed to connect to local tailscaled"))
  \/ (exists json_err,
        exec.State Sample.refused = exec.Exited 0
        /\ Sample.json_Unmarshal (exec.Stdout Sample.refused) = inl json_err
        /\ ErrNodesList "exit status 1" "failed to connect to local tailscaled"
           = ErrUnmarshal json_err (exec.Stdout Sample.refused)
        /\ Error (ErrNodesList "exit status 1" "failed to connect to local tailscaled")
           = "error on unmarshal: " +:+ json_err +:+ ". stdout: "
             +:+ exec.Stdout Sample.refused).
Proof.
  apply (TailscaleGetStatus_error_kinds Sample.json_Unmarshal Sample.refused).
  reflexivity.
Defined.

Lemma getListenAddr_no_address_witness :
  getListenAddr Sample.json_Unmarshal (Sample.prints "no_self_address.json") = inl ErrNoIps
  /\ Error ErrNoIps = "no ips found"%string
  /\ (forall runs,
        main Sample.json_Unmarshal (Sample.prints "no_self_address.json") runs
        = Dead (ExitPanic ErrNoIps))
  /\ (forall ip errors, 0 <= errors < 20 ->
        turn Sample.json_Unmarshal ip errors (Sample.prints "no_self_address.json")
        = Loop (errors + 1))
  /\ (forall ip,
        turn Sample.json_Unmarshal ip 20 (Sample.prints "no_self_address.json")
        = Dead (ExitPanicErrorf "on update ip: no ips found")).
Proof.
  apply (getListenAddr_no_address Sample.json_Unmarshal
           (Sample.prints "no_self_address.json") Sample.no_self_address);
    reflexivity.
Defined.

(** The diagnostic text of the failing runs has a [%] in it: it reaches
    [fmt.Errorf] inside the format. *)
Lemma watchdog_exit_causes_witness :
  (exists ip, getListenAddr Sample.json_Unmarshal (Sample.prints "one_peer.json") = inr ip)
  /\ 21 <= failures Sample.json_Unmarshal (replicate 21 Sample.down)
  /\ exists cmd err,
       cmd ∈ replicate 21 Sample.down
       /\ getListenAddr Sample.json_Unmarshal cmd = inl err
       /\ ("on update ip: error on headscale nodes list: exit status 1. "
           +:+ "stderr: 100%s down")%string
          = "on update ip: " +:+ Error err.
Proof.
  apply (watchdog_exit_causes Sample.json_Unmarshal (Sample.prints "one_peer.json")
           (replicate 21 Sample.down)
           (ExitPanicErrorf ("on update ip: error on headscale nodes list: exit status 1. "
                             +:+ "stderr: 100%s down"))).
  vm_compute. reflexivity.
Defined.

(** Ten failures, a success, eleven failures: the 21st failure ends the
    process although no 21 came in a row. *)
Lemma watchdog_counts_all_failures_witness :
  exists err,
    watchdog Sample.json_Unmarshal "100.64.0.1" 0
      (replicate 10 Sample.refused ++ Sample.prints "one_peer.json"
         :: replicate 11 Sample.refused)
    = Dead (ExitPanicErrorf ("on update ip: " +:+ Error err)).
Proof.
  apply (watchdog_counts_all_failures Sample.json_Unmarshal "100.64.0.1"%string
           (replicate 10 Sample.refused ++ Sample.prints "one_peer.json"
              :: replicate 11 Sample.refused)).
  - repeat (constructor;
            [vm_compute; intros H; first [discriminate H | reflexivity]|]).
    constructor.
  - vm_compute. discriminate.
Defined.
